(** * GrkApp: the fetch / filter / classify / export core of gui11.py

    A shallow embedding of the data path of the Jakarta greenhouse-gas
    dashboard (src/gui11.py): [get_air_quality_data], the three view
    filters of [update_graph], [update_forecast] and [ambil_data], the
    status classification of [show_kpi] and the CSV export of
    [add_save_button].

    Python exceptions are explicit: every operation that can raise returns
    a [Result], and [try_except] is the source's [try: ... except Exception:].
    The parts of pandas whose behaviour is not written in the repository
    (date parsing, number formatting, the mean) are fields of the class
    [PandasLib]; every theorem holds for all of its instances.

    Module [Gui] adds the window: the callbacks as state transformers over
    the widgets, the table rows and the pending [root.after] timers, and
    the main loop while one refreshing view is shown. *)

From Stdlib Require Import String Ascii List ZArith QArith Bool Lia Lqa Sorted.
Import ListNotations.
Set Warnings "-register-all".
Local Open Scope string_scope.
Local Open Scope Z_scope.

(** ** Python values, exceptions and the exception monad *)

Module Py.

(** The exception classes the modelled code can meet.  All of them derive
    from Python's [Exception]. *)
Inductive Exc : Type :=
| RequestException   (* requests: connection error, timeout, ... *)
| JSONDecodeError    (* resp.json() on a body that is not JSON *)
| KeyError
| TypeError
| ValueError
| AttributeError.

Inductive Result (A : Type) : Type :=
| Returned (a : A)
| Raised (e : Exc).
Arguments Returned {A} a.
Arguments Raised {A} e.

Definition bind {A B} (m : Result A) (k : A -> Result B) : Result B :=
  match m with
  | Returned a => k a
  | Raised e => Raised e
  end.

(** [try: body except Exception: handler] *)
Definition try_except {A} (body : Result A) (handler : Result A) : Result A :=
  match body with
  | Returned a => Returned a
  | Raised _ => handler
  end.

(** Evaluates [f] on the elements from left to right and stops at the
    first exception, as an element-wise loop does. *)
Fixpoint mapM {A B} (f : A -> Result B) (l : list A) : Result (list B) :=
  match l with
  | [] => Returned []
  | x :: l' =>
      bind (f x) (fun y => bind (mapM f l') (fun ys => Returned (y :: ys)))
  end.

(** A decoded JSON document, as [json.loads] hands it to Python: [JObj]
    is a dict (keys in insertion order), [JArr] a list, [JNum] an int or a
    finite float (every finite binary64 value is a rational). *)
Inductive json : Type :=
| JNull
| JBool (b : bool)
| JNum (q : Q)
| JStr (s : string)
| JArr (l : list json)
| JObj (kv : list (string * json)).

(** Dict lookup by key; in an association list the first binding wins. *)
Fixpoint dict_get {V} (k : string) (d : list (string * V)) : option V :=
  match d with
  | [] => None
  | (k', v) :: d' => if String.eqb k k' then Some v else dict_get k d'
  end.

Definition is_JStr (k : string) (j : json) : bool :=
  match j with
  | JStr s => String.eqb k s
  | _ => false
  end.

(** [sub in s] on two strings. *)
Fixpoint str_contains (sub s : string) : bool :=
  String.prefix sub s
  || match s with
     | EmptyString => false
     | String _ s' => str_contains sub s'
     end.

(** [k in data] for a string [k]: key membership on a dict, element
    membership on a list, substring test on a string, TypeError on
    anything that is not a container. *)
Definition contains (k : string) (data : json) : Result bool :=
  match data with
  | JObj kv => Returned (match dict_get k kv with Some _ => true | None => false end)
  | JArr l => Returned (existsb (is_JStr k) l)
  | JStr s => Returned (str_contains k s)
  | JNull | JBool _ | JNum _ => Raised TypeError
  end.

(** [data[k]] for a string [k]: only a dict can be subscripted by a
    string. *)
Definition getitem (data : json) (k : string) : Result json :=
  match data with
  | JObj kv =>
      match dict_get k kv with
      | Some v => Returned v
      | None => Raised KeyError
      end
  | _ => Raised TypeError
  end.

(** Python floats: the finite ones are rationals, and comparison follows
    IEEE 754 (every comparison with NaN is false).  Comparing a float with
    an int literal is exact. *)
Inductive float : Type :=
| Fin (q : Q)
| PosInf
| NegInf
| NaN.

Definition Qltb (x y : Q) : bool :=
  match Qcompare x y with Lt => true | _ => false end.

Definition Qleb (x y : Q) : bool :=
  match Qcompare x y with Gt => false | _ => true end.

Definition ltb (x y : float) : bool :=
  match x, y with
  | NaN, _ | _, NaN => false
  | Fin a, Fin b => Qltb a b
  | NegInf, (Fin _ | PosInf) => true
  | Fin _, PosInf => true
  | _, _ => false
  end.

Definition leb (x y : float) : bool :=
  match x, y with
  | NaN, _ | _, NaN => false
  | Fin a, Fin b => Qleb a b
  | NegInf, _ => true
  | _, PosInf => true
  | _, _ => false
  end.

Definition of_int (z : Z) : float := Fin (inject_Z z).

(** [max(x :: rest, key=key)]: the first element whose key is maximal. *)
Fixpoint max_key {A} (key : A -> Z) (x : A) (rest : list A) : A :=
  match rest with
  | [] => x
  | y :: rest' => max_key key (if key x <? key y then y else x) rest'
  end.

End Py.
Import Py.

Declare Scope py_scope.
Delimit Scope py_scope with py.
Notation "x <- m ;; k" := (bind m (fun x => k))
  (at level 61, m at next level, right associativity) : py_scope.
Local Open Scope py_scope.

(** ** The part of pandas the program uses *)

Module Pandas.

(** A naive [Timestamp]/[datetime]: nanoseconds since 1970-01-01T00:00.
    The API is queried without a [timezone] parameter and answers with
    ISO 8601 strings that carry no UTC offset, so every timestamp of the
    program is naive, like [datetime.now()]. *)
Definition Timestamp : Type := Z.

(** A [datetime.date] as its day number; the order of dates is the order
    of day numbers. *)
Definition date : Type := Z.

Definition ns_per_day : Z := 86400000000000.

(** [t.date()] *)
Definition date_of (t : Timestamp) : date := t / ns_per_day.

(** A column is either datetime64 ([None] is NaT) or holds plain Python
    values (float64 and object columns; [JNull] is a missing value).  Only
    the first kind has the [.dt] accessor. *)
Inductive Column : Type :=
| ColDatetime (l : list (option Timestamp))
| ColObject (l : list json).

Definition col_len (c : Column) : nat :=
  match c with
  | ColDatetime l => length l
  | ColObject l => length l
  end.

(** Columns by name, in the order of the dict that built the frame. *)
Definition DataFrame : Type := list (string * Column).

Definition column_names (df : DataFrame) : list string := map fst df.

(** [len(df)] *)
Definition nrows (df : DataFrame) : nat :=
  match df with
  | [] => O
  | (_, c) :: _ => col_len c
  end.

(** [df.empty]: some axis has length 0. *)
Definition empty (df : DataFrame) : bool :=
  match df with
  | [] => true
  | _ => Nat.eqb (nrows df) 0
  end.

(** What the program passes as a column to [pd.DataFrame]: the result of
    [pd.to_datetime] (an index for a list, a scalar for a scalar) or a value
    of the payload as it is. *)
Inductive Arg : Type :=
| DatetimeIndex (l : list (option Timestamp))
| TimestampScalar (t : option Timestamp)
| Object (j : json).

(** The list-like arguments and the column each becomes. *)
Definition as_column (a : Arg) : option Column :=
  match a with
  | DatetimeIndex l => Some (ColDatetime l)
  | Object (JArr l) => Some (ColObject l)
  | _ => None
  end.

Fixpoint as_columns (d : list (string * Arg)) : option DataFrame :=
  match d with
  | [] => Some []
  | (k, a) :: d' =>
      match as_column a, as_columns d' with
      | Some c, Some cols => Some ((k, c) :: cols)
      | _, _ => None
      end
  end.

Definition same_length (df : DataFrame) : bool :=
  match df with
  | [] => true
  | (_, c) :: rest =>
      forallb (fun kc => Nat.eqb (col_len (snd kc)) (col_len c)) rest
  end.

(** [Series[mask]] on the values of a column. *)
Fixpoint select {A} (mask : list bool) (l : list A) : list A :=
  match mask, l with
  | b :: mask', x :: l' =>
      if b then x :: select mask' l' else select mask' l'
  | _, _ => []
  end.

Definition select_col (mask : list bool) (c : Column) : Column :=
  match c with
  | ColDatetime l => ColDatetime (select mask l)
  | ColObject l => ColObject (select mask l)
  end.

(** [df[mask]] for a boolean Series computed from a column of [df]: the
    rows where the mask is true, in every column. *)
Definition getitem_mask (df : DataFrame) (mask : list bool) : DataFrame :=
  map (fun kc => (fst kc, select_col mask (snd kc))) df.

(** [df[name]] *)
Definition getitem_col (df : DataFrame) (name : string) : Result Column :=
  match dict_get name df with
  | Some c => Returned c
  | None => Raised KeyError
  end.

(** [series.dt.date]: the accessor exists on datetime-like columns only
    (pandas: "Can only use .dt accessor with datetimelike values"). *)
Definition dt_date (c : Column) : Result (list (option date)) :=
  match c with
  | ColDatetime l => Returned (map (option_map date_of) l)
  | ColObject _ => Raised AttributeError
  end.

(** Element-wise comparisons of a date column with a date; a missing
    date compares false. *)
Definition date_eq (d : date) (x : option date) : bool :=
  match x with Some y => Z.eqb y d | None => false end.

Definition date_ge (d : date) (x : option date) : bool :=
  match x with Some y => Z.leb d y | None => false end.

Definition date_le (d : date) (x : option date) : bool :=
  match x with Some y => Z.leb y d | None => false end.

Inductive Newline : Type := LF | CRLF.

Definition newline_string (n : Newline) : string :=
  match n with
  | LF => String "010"%char EmptyString
  | CRLF => String "013"%char (String "010"%char EmptyString)
  end.

(** The library behaviour that is not written in the repository. *)
Class PandasLib : Type := {
  (** [pd.to_datetime] on a list settles a format for the whole list and
      converts each element with it; [Returned None] is NaT. *)
  DatetimeFormat : Type;
  guess_datetime_format : list json -> DatetimeFormat;
  parse_datetime : DatetimeFormat -> json -> Result (option Timestamp);
  (** [pd.to_datetime] on a value that is not a list. *)
  to_datetime_other : json -> Result Arg;
  (** [pd.DataFrame] on a dict in which some value is not list-like:
      scalars are broadcast, mappings aligned, many mixtures raise.  The
      result says which column each argument becomes. *)
  homogenize_other : list Arg -> Result (Arg -> Column);
  (** [x > now] for one value of a column that is not datetime64. *)
  object_gt : json -> Timestamp -> Result bool;
  (** [series.mean()] *)
  mean : Column -> Result float;
  (** [ax.plot(x, y)] of matplotlib, which refuses some columns (strings
      mixed with numbers, for one). *)
  ax_plot : Column -> Column -> Result unit;
  (** How [to_csv] prints a timestamp, and a plain value, of a column: the
      format is chosen for the whole column (a date alone when every time
      is midnight; 1970 or 1970.0 by the dtype of the column). *)
  csv_timestamp : list (option Timestamp) -> Timestamp -> string;
  csv_value : list json -> json -> string;
  (** [os.linesep], the line terminator [to_csv] uses by default. *)
  linesep : Newline
}.

Section WithLib.
Context {lib : PandasLib}.

(** [pd.to_datetime(x)] *)
Definition to_datetime (x : json) : Result Arg :=
  match x with
  | JArr l =>
      ts <- mapM (parse_datetime (guess_datetime_format l)) l ;;
      Returned (DatetimeIndex ts)
  | _ => to_datetime_other x
  end.

(** [pd.DataFrame(d)] for a dict [d]: the keys become the columns, in
    order; list-like values must all have the same length ("All arrays
    must be of the same length"). *)
Definition DataFrame_of_dict (d : list (string * Arg)) : Result DataFrame :=
  match as_columns d with
  | Some df => if same_length df then Returned df else Raised ValueError
  | None =>
      f <- homogenize_other (map snd d) ;;
      Returned (map (fun ka => (fst ka, f (snd ka))) d)
  end.

(** [series > now] *)
Definition gt_datetime (c : Column) (now : Timestamp) : Result (list bool) :=
  match c with
  | ColDatetime l =>
      Returned (map (fun x => match x with
                              | Some t => Z.ltb now t
                              | None => false
                              end) l)
  | ColObject l => mapM (fun x => object_gt x now) l
  end.

(** [to_csv(path, index=False)].  The csv writer quotes a field only
    when it holds the delimiter, the quote character or a character of
    the line terminator, and doubles the quotes inside it. *)
Definition quotechar : ascii := "034"%char.

Definition lineterminator : string := newline_string linesep.

Definition needs_quote (s : string) : bool :=
  existsb (fun c =>
             Ascii.eqb c ","%char || Ascii.eqb c quotechar
             || existsb (Ascii.eqb c) (list_ascii_of_string lineterminator))
          (list_ascii_of_string s).

Fixpoint double_quotes (s : string) : string :=
  match s with
  | EmptyString => EmptyString
  | String c s' =>
      if Ascii.eqb c quotechar
      then String c (String c (double_quotes s'))
      else String c (double_quotes s')
  end.

Definition csv_field (s : string) : string :=
  if needs_quote s
  then String quotechar (double_quotes s ++ String quotechar EmptyString)
  else s.

Definition csv_line (fields : list string) : string :=
  String.concat "," (map csv_field fields).

(** The printed cells of a column; a missing value prints as the empty
    string ([na_rep] is left at its default). *)
Definition csv_cells (c : Column) : list string :=
  match c with
  | ColDatetime l =>
      map (fun x => match x with
                    | Some t => csv_timestamp l t
                    | None => ""
                    end) l
  | ColObject l =>
      map (fun x => match x with
                    | JNull => ""
                    | _ => csv_value l x
                    end) l
  end.

Definition csv_rows (df : DataFrame) : list (list string) :=
  map (fun i => map (fun kc => nth i (csv_cells (snd kc)) "") df)
      (seq 0 (nrows df)).

(** The lines of the file: the header, then one line per row. *)
Definition to_csv_lines (df : DataFrame) : list string :=
  csv_line (column_names df) :: map csv_line (csv_rows df).

Definition to_csv (df : DataFrame) : string :=
  String.concat "" (map (fun l => l ++ lineterminator) (to_csv_lines df)).

End WithLib.

End Pandas.
Import Pandas.

(** ** gui11.py *)

Definition wilayah_coords : list (string * (Q * Q)) :=
  [ ("Jakarta Pusat",   (-(61862 # 10000), 1068347 # 10000));
    ("Jakarta Barat",   (-(61683 # 10000), 1067589 # 10000));
    ("Jakarta Timur",   (-(62250 # 10000), 1069000 # 10000));
    ("Jakarta Selatan", (-(62667 # 10000), 1068000 # 10000));
    ("Jakarta Utara",   (-(61189 # 10000), 1069156 # 10000));
    ("Pulau Seribu",    (-(57980 # 10000), 1065070 # 10000)) ]%Q.

(** The call [requests.get(url, params=params, timeout=10)] and its answer.
    [body] is [None] when the body is not JSON, so that [resp.json()]
    raises. *)
Record Request : Type := {
  url : string;
  params : list (string * json);
  timeout : Z
}.

Record Response : Type := { body : option json }.

Definition Response_json (resp : Response) : Result json :=
  match body resp with
  | Some data => Returned data
  | None => Raised JSONDecodeError
  end.

(** The network: what [requests.get] does with a request. *)
Definition Network : Type := Request -> Result Response.

(** Lines 41-48 and the arguments of [requests.get] on line 50. *)
Definition air_quality_request (lat lon : Q) : Request :=
  let url := "https://air-quality-api.open-meteo.com/v1/air-quality" in
  let params :=
    [ ("latitude", JNum lat);
      ("longitude", JNum lon);
      ("hourly", JStr "carbon_dioxide,methane");
      ("past_days", JNum 7);
      ("forecast_days", JNum 2) ] in
  {| url := url; params := params; timeout := 10 |}.

Inductive Status : Type := Normal | Waspada | Tinggi.

(** What a frame of the window shows. *)
Inductive Widget : Type :=
| Label (text : string)
| Chart (title : string) (x co2 ch4 : Column)
| KpiLabel (co2_avg ch4_avg : float) (overall : Status) (fg : string).

Definition status_levels (x : Status) : Z :=
  match x with Normal => 1 | Waspada => 2 | Tinggi => 3 end.

Definition status_colors (x : Status) : string :=
  match x with
  | Normal => "#43A047"
  | Waspada => "#FFA726"
  | Tinggi => "#E53935"
  end.

(** Lines 167-172 of [show_kpi]. *)
Definition status_co2 (co2_avg : float) : Status :=
  if ltb co2_avg (of_int 450) then Normal
  else if leb (of_int 450) co2_avg && leb co2_avg (of_int 500) then Waspada
  else Tinggi.

(** Lines 175-180 of [show_kpi]. *)
Definition status_ch4 (ch4_avg : float) : Status :=
  if ltb ch4_avg (of_int 1950) then Normal
  else if leb (of_int 1950) ch4_avg && leb ch4_avg (of_int 2000) then Waspada
  else Tinggi.

(** [max([status_co2, status_ch4], key=lambda x: status_levels[x])] *)
Definition overall_status (s_co2 s_ch4 : Status) : Status :=
  max_key status_levels s_co2 [s_ch4].

(** The status [show_kpi] displays for the two averages. *)
Definition kpi_status (co2_avg ch4_avg : float) : Status :=
  overall_status (status_co2 co2_avg) (status_ch4 ch4_avg).

(** The three filtering views, with the clock reading or the dates that
    parameterise the filter. *)
Inductive View : Type :=
| Realtime (now : Timestamp)
| Forecast (now : Timestamp)
| Period (start_date end_date : date).

Definition mask_and (a b : list bool) : list bool :=
  map (fun p => fst p && snd p) (combine a b).

Section Program.
Context {lib : PandasLib}.

Definition empty_dict : list (string * Arg) :=
  [ ("Waktu", Object (JArr []));
    ("CO2_ppm", Object (JArr []));
    ("CH4_ppb", Object (JArr [])) ].

Definition get_air_quality_data (net : Network) (lat lon : Q)
  : Result DataFrame :=
  try_except
    (resp <- net (air_quality_request lat lon) ;;
     data <- Response_json resp ;;
     has_hourly <- contains "hourly" data ;;
     if negb has_hourly then DataFrame_of_dict empty_dict
     else
       hourly <- getitem data "hourly" ;;
       time <- getitem hourly "time" ;;
       times <- to_datetime time ;;
       hourly <- getitem data "hourly" ;;
       co2 <- getitem hourly "carbon_dioxide" ;;
       hourly <- getitem data "hourly" ;;
       ch4 <- getitem hourly "methane" ;;
       DataFrame_of_dict
         [ ("Waktu", times); ("CO2_ppm", Object co2); ("CH4_ppb", Object ch4) ])
    (DataFrame_of_dict empty_dict).

(** [plot_graph]: the "no data" label or the two-axis chart (lines
    122-136: the CO2 line is drawn before the CH4 column is read). *)
Definition plot_graph (df : DataFrame) (title : string) : Result Widget :=
  if empty df then Returned (Label "Tidak ada data tersedia.")
  else
    x <- getitem_col df "Waktu" ;;
    co2 <- getitem_col df "CO2_ppm" ;;
    _ <- ax_plot x co2 ;;
    x2 <- getitem_col df "Waktu" ;;
    ch4 <- getitem_col df "CH4_ppb" ;;
    _ <- ax_plot x2 ch4 ;;
    Returned (Chart title x co2 ch4).

Definition show_kpi (df : DataFrame) : Result Widget :=
  if empty df then Returned (Label "Tidak ada data KPI.")
  else
    co2 <- getitem_col df "CO2_ppm" ;;
    co2_avg <- mean co2 ;;
    ch4 <- getitem_col df "CH4_ppb" ;;
    ch4_avg <- mean ch4 ;;
    let s_co2 := status_co2 co2_avg in
    let s_ch4 := status_ch4 ch4_avg in
    let overall := overall_status s_co2 s_ch4 in
    Returned (KpiLabel co2_avg ch4_avg overall (status_colors overall)).

(** [save_csv] of [add_save_button], once the user has chosen a path: the
    text written to the file. *)
Definition save_csv (df : DataFrame) : string := to_csv df.

(** Line 264-265: [df[df["Waktu"].dt.date == today]]. *)
Definition df_today (now : Timestamp) (df : DataFrame) : Result DataFrame :=
  let today := date_of now in
  waktu <- getitem_col df "Waktu" ;;
  dates <- dt_date waktu ;;
  Returned (getitem_mask df (map (date_eq today) dates)).

(** Line 305-306: [df[df["Waktu"] > now]]. *)
Definition df_forecast (now : Timestamp) (df : DataFrame) : Result DataFrame :=
  waktu <- getitem_col df "Waktu" ;;
  mask <- gt_datetime waktu now ;;
  Returned (getitem_mask df mask).

(** Line 389-390:
    [df[(df["Waktu"].dt.date >= start_date) & (df["Waktu"].dt.date <= end_date)]]. *)
Definition df_period (start_date end_date : date) (df : DataFrame)
  : Result DataFrame :=
  waktu <- getitem_col df "Waktu" ;;
  dates <- dt_date waktu ;;
  let ge := map (date_ge start_date) dates in
  waktu <- getitem_col df "Waktu" ;;
  dates <- dt_date waktu ;;
  let le := map (date_le end_date) dates in
  Returned (getitem_mask df (mask_and ge le)).

(** The filter of each view. *)
Definition view_filter (v : View) (df : DataFrame) : Result DataFrame :=
  match v with
  | Realtime now => df_today now df
  | Forecast now => df_forecast now df
  | Period start_date end_date => df_period start_date end_date df
  end.

Definition wilayah (name : string) : Result (Q * Q) :=
  match dict_get name wilayah_coords with
  | Some c => Returned c
  | None => Raised KeyError
  end.

(** One refresh of the realtime view: the chart, the KPI label and the
    frame behind the save button.  The timer that schedules the next
    refresh is not modelled. *)
Definition update_graph (net : Network) (selected : string) (now : Timestamp)
  : Result (Widget * Widget * DataFrame) :=
  c <- wilayah selected ;;
  df <- get_air_quality_data net (fst c) (snd c) ;;
  shown <- df_today now df ;;
  graph <- plot_graph shown "CO₂ & CH₄ Hari Ini" ;;
  kpi <- show_kpi shown ;;
  Returned (graph, kpi, shown).

(** One refresh of the forecast view. *)
Definition update_forecast (net : Network) (selected : string) (now : Timestamp)
  : Result (Widget * DataFrame) :=
  c <- wilayah selected ;;
  df <- get_air_quality_data net (fst c) (snd c) ;;
  shown <- df_forecast now df ;;
  graph <- plot_graph shown "Forecast CO₂ & CH₄" ;;
  Returned (graph, shown).

(** The "Ambil Data" button of the period view: the frame whose rows fill
    the table and go behind the save button. *)
Definition ambil_data (net : Network) (selected : string)
           (start_date end_date : date) : Result DataFrame :=
  c <- wilayah selected ;;
  df <- get_air_quality_data net (fst c) (snd c) ;;
  df_period start_date end_date df.

End Program.

(** ** A reference instance of the library

    It covers the payloads the API documents: hourly times as ISO 8601
    strings without offset ("2024-05-01T13:00", seconds optional), gas
    values as numbers or null.  Off these payloads it takes the simple
    course where pandas has many cases (times with an offset or a fraction of
    a second, and numbers with a fraction given as times, are refused; the
    mean is exact, not rounded to binary64).  The general theorems hold for every
    instance; this one runs the program on concrete payloads. *)

Module Reference.

Definition digit (c : ascii) : option Z :=
  let n := Z.of_nat (nat_of_ascii c) in
  if (48 <=? n) && (n <=? 57) then Some (n - 48) else None.

Fixpoint number (acc : Z) (s : string) : option Z :=
  match s with
  | EmptyString => Some acc
  | String c s' =>
      match digit c with
      | Some d => number (10 * acc + d) s'
      | None => None
      end
  end.

(** Days from 1970-01-01 to the given day of the proleptic Gregorian
    calendar. *)
Definition days_from_civil (y m d : Z) : Z :=
  let y' := if m <=? 2 then y - 1 else y in
  let era := y' / 400 in
  let yoe := y' - era * 400 in
  let mp := (m + 9) mod 12 in
  let doy := (153 * mp + 2) / 5 + d - 1 in
  let doe := yoe * 365 + yoe / 4 - yoe / 100 + doy in
  era * 146097 + doe - 719468.

(** The inverse: year, month and day of a day number. *)
Definition civil_from_days (z : Z) : Z * Z * Z :=
  let z' := z + 719468 in
  let era := z' / 146097 in
  let doe := z' - era * 146097 in
  let yoe := (doe - doe / 1460 + doe / 36524 - doe / 146096) / 365 in
  let doy := doe - (365 * yoe + yoe / 4 - yoe / 100) in
  let mp := (5 * doy + 2) / 153 in
  let d := doy - (153 * mp + 2) / 5 + 1 in
  let m := if mp <? 10 then mp + 3 else mp - 9 in
  ((if m <=? 2 then yoe + era * 400 + 1 else yoe + era * 400), m, d).

Definition is_leap (y : Z) : bool :=
  ((y mod 4 =? 0) && negb (y mod 100 =? 0)) || (y mod 400 =? 0).

Definition days_in_month (y m : Z) : Z :=
  if m =? 2 then (if is_leap y then 29 else 28)
  else if (m =? 4) || (m =? 6) || (m =? 9) || (m =? 11) then 30
  else 31.

Definition ns_per_minute : Z := 60000000000.

(** "YYYY-MM-DDTHH:MM" *)
Definition parse_iso_minute (s : string) : option Timestamp :=
  if negb (Nat.eqb (String.length s) 16) then None
  else if negb (String.eqb (substring 4 1 s) "-" && String.eqb (substring 7 1 s) "-"
                && String.eqb (substring 10 1 s) "T"
                && String.eqb (substring 13 1 s) ":") then None
  else
    match number 0 (substring 0 4 s), number 0 (substring 5 2 s),
          number 0 (substring 8 2 s), number 0 (substring 11 2 s),
          number 0 (substring 14 2 s) with
    | Some y, Some m, Some d, Some hh, Some mm =>
        if (1 <=? m) && (m <=? 12) && (1 <=? d) && (d <=? days_in_month y m)
           && (hh <=? 23) && (mm <=? 59)
        then Some (days_from_civil y m d * ns_per_day
                   + (hh * 60 + mm) * ns_per_minute)
        else None
    | _, _, _, _, _ => None
    end.

(** "YYYY-MM-DDTHH:MM" or "YYYY-MM-DDTHH:MM:SS" *)
Definition parse_iso (s : string) : option Timestamp :=
  if Nat.eqb (String.length s) 19 && String.eqb (substring 16 1 s) ":"
  then match parse_iso_minute (substring 0 16 s), number 0 (substring 17 2 s) with
       | Some t, Some ss =>
           if ss <=? 59 then Some (t + ss * 1000000000) else None
       | _, _ => None
       end
  else parse_iso_minute s.

Definition is_string (x : json) : bool :=
  match x with JStr _ => true | _ => false end.

Definition integral (q : Q) : bool := Qnum q mod Zpos (Qden q) =? 0.

(** An element of a list of times.  [with_strings] says that the list
    holds a string; whole numbers count nanoseconds since the epoch, and
    are taken only in a list without strings. *)
Definition parse_elem (with_strings : bool) (x : json) : Result (option Timestamp) :=
  match x with
  | JNull => Returned None
  | JStr s =>
      match parse_iso s with
      | Some t => Returned (Some t)
      | None => Raised ValueError
      end
  | JNum q =>
      if negb with_strings && integral q
      then Returned (Some (Qnum q / Zpos (Qden q)))
      else Raised ValueError
  | _ => Raised TypeError
  end.

Definition to_datetime_scalar (x : json) : Result Arg :=
  match x with
  | JNull => Returned (Object JNull)
  | JStr s =>
      match parse_iso s with
      | Some t => Returned (TimestampScalar (Some t))
      | None => Raised ValueError
      end
  | JNum q =>
      if integral q then Returned (TimestampScalar (Some (Qnum q / Zpos (Qden q))))
      else Raised ValueError
  | _ => Raised TypeError
  end.

Definition is_mapping (a : Arg) : bool :=
  match a with Object (JObj _) => true | _ => false end.

Definition list_length (a : Arg) : option nat :=
  option_map col_len (as_column a).

Fixpoint list_lengths (args : list Arg) : list nat :=
  match args with
  | [] => []
  | a :: args' =>
      match list_length a with
      | Some n => n :: list_lengths args'
      | None => list_lengths args'
      end
  end.

(** Scalars are repeated along the common length of the list-like
    values; a dict of scalars only, or a mapping among the values, is
    refused. *)
Definition broadcast (args : list Arg) : Result (Arg -> Column) :=
  if existsb is_mapping args then Raised ValueError
  else
    match list_lengths args with
    | [] => Raised ValueError
    | n :: ns =>
        if forallb (Nat.eqb n) ns
        then Returned (fun a =>
               match a with
               | DatetimeIndex l => ColDatetime l
               | TimestampScalar t => ColDatetime (repeat t n)
               | Object (JArr l) => ColObject l
               | Object j => ColObject (repeat j n)
               end)
        else Raised ValueError
    end.

Definition gt_object (x : json) (_ : Timestamp) : Result bool :=
  match x with
  | JNull => Returned false
  | _ => Raised TypeError
  end.

(** The mean of the numbers of a column, missing values skipped; NaN when
    there is none.  Exact, where pandas rounds to binary64. *)
Fixpoint sum_count (l : list json) : Result (Q * Z) :=
  match l with
  | [] => Returned (0%Q, 0)
  | JNull :: l' => sum_count l'
  | JNum q :: l' =>
      sc <- sum_count l' ;; Returned ((q + fst sc)%Q, 1 + snd sc)
  | _ :: _ => Raised TypeError
  end.

Definition mean_exact (c : Column) : Result float :=
  match c with
  | ColDatetime _ => Raised TypeError
  | ColObject l =>
      sc <- sum_count l ;;
      if snd sc =? 0 then Returned NaN
      else Returned (Fin (Qred (fst sc / inject_Z (snd sc))))
  end.

Definition digit_char (d : Z) : ascii := ascii_of_nat (Z.to_nat (48 + d)).

(** The last [n] decimal digits of [z], most significant first. *)
Fixpoint digits (n : nat) (z : Z) (acc : string) : string :=
  match n with
  | O => acc
  | S n' => digits n' (z / 10) (String (digit_char (z mod 10)) acc)
  end.

Definition decimal (z : Z) : string :=
  let a := Z.abs z in
  let n := S (Z.to_nat (Z.log2 a)) in
  let fix strip (k : nat) (s : string) : string :=
    match k, s with
    | S k', String "0"%char (String c s') => strip k' (String c s')
    | _, _ => s
    end in
  (if z <? 0 then "-" else "") ++ strip n (digits n a "").

Definition is_midnight (x : option Timestamp) : bool :=
  match x with
  | Some t => t mod ns_per_day =? 0
  | None => true
  end.

(** "YYYY-MM-DD HH:MM:SS", or "YYYY-MM-DD" alone in a column where every
    time is midnight. *)
Definition print_timestamp (col : list (option Timestamp)) (t : Timestamp) : string :=
  let day := date_of t in
  let secs := (t mod ns_per_day) / 1000000000 in
  let '(y, m, d) := civil_from_days day in
  let ymd := digits 4 y "" ++ "-" ++ digits 2 m "" ++ "-" ++ digits 2 d "" in
  if forallb is_midnight col then ymd
  else ymd ++ " " ++ digits 2 (secs / 3600) "" ++ ":"
       ++ digits 2 ((secs / 60) mod 60) "" ++ ":" ++ digits 2 (secs mod 60) "".

(** A column of whole numbers without a missing value is an int column; a
    column of numbers with a fraction or a missing value among them is a
    float column, where 1970 prints as 1970.0. *)
Definition is_number (x : json) : bool :=
  match x with JNum _ | JNull => true | _ => false end.

Definition is_fraction_or_missing (x : json) : bool :=
  match x with
  | JNum q => negb (integral q)
  | JNull => true
  | _ => false
  end.

Definition float_column (col : list json) : bool :=
  forallb is_number col && existsb is_fraction_or_missing col.

(** Without the zeros at the end. *)
Fixpoint trim_zeros (s : string) : string :=
  match s with
  | EmptyString => EmptyString
  | String c s' =>
      match trim_zeros s' with
      | EmptyString => if Ascii.eqb c "0"%char then EmptyString
                       else String c EmptyString
      | r => String c r
      end
  end.

(** The decimal expansion, to seventeen fractional digits at most. *)
Definition fraction (q : Q) : string :=
  let n := Z.abs (Qnum q) in
  let d := Zpos (Qden q) in
  let scale := 100000000000000000 in
  match trim_zeros (digits 17 ((n * scale / d) mod scale) "") with
  | EmptyString => "0"
  | r => r
  end.

Definition print_value (col : list json) (x : json) : string :=
  match x with
  | JNull => ""
  | JBool true => "True"
  | JBool false => "False"
  | JNum q =>
      let n := Qnum q in
      let d := Zpos (Qden q) in
      if integral q && negb (float_column col) then decimal (n / d)
      else (if n <? 0 then "-" else "") ++ decimal (Z.abs n / d) ++ "."
           ++ fraction q
  | JStr s => s
  | JArr _ => "[...]"
  | JObj _ => "{...}"
  end.

(** A line of datetimes, of numbers (missing values leave a gap) or of
    strings can be drawn; a mixture, or nested values, cannot. *)
Definition drawable (y : Column) : bool :=
  match y with
  | ColDatetime _ => true
  | ColObject l => forallb is_number l || forallb is_string l
  end.

Definition draw (x y : Column) : Result unit :=
  if drawable y then Returned tt else Raised TypeError.

Definition iso_lib : PandasLib := {|
  DatetimeFormat := bool;
  guess_datetime_format := existsb is_string;
  parse_datetime := parse_elem;
  to_datetime_other := to_datetime_scalar;
  homogenize_other := broadcast;
  object_gt := gt_object;
  mean := mean_exact;
  ax_plot := draw;
  csv_timestamp := print_timestamp;
  csv_value := print_value;
  linesep := LF
|}.

(** Canned networks. *)
Definition unreachable : Network := fun _ => Raised RequestException.

Definition answers (data : json) : Network :=
  fun _ => Returned {| body := Some data |}.

Definition not_json : Network := fun _ => Returned {| body := None |}.

Definition hourly_payload (time co2 ch4 : list json) : json :=
  JObj [ ("latitude", JNum (-(62 # 10)));
         ("hourly", JObj [ ("time", JArr time);
                           ("carbon_dioxide", JArr co2);
                           ("methane", JArr ch4) ]) ].

End Reference.
Import Reference.

(** ** Vocabulary of the properties *)

(** The frame of [pd.DataFrame({"Waktu": [], "CO2_ppm": [], "CH4_ppb": []})]:
    three columns, no row, and no datetime column among them. *)
Definition empty_frame : DataFrame :=
  [ ("Waktu", ColObject []); ("CO2_ppm", ColObject []); ("CH4_ppb", ColObject []) ].

Definition series_columns : list string := [ "Waktu"; "CO2_ppm"; "CH4_ppb" ].

(** The Series of a payload with parallel arrays. *)
Definition series (times : list (option Timestamp)) (co2 ch4 : list json)
  : DataFrame :=
  [ ("Waktu", ColDatetime times); ("CO2_ppm", ColObject co2);
    ("CH4_ppb", ColObject ch4) ].

(** The failed fetches: the request raises (transport error), the body is
    not JSON or is JSON of the wrong shape (malformed payload: not an
    object, or an "hourly" member that is not an object), or an expected
    key is missing ("hourly" itself, or one of the three arrays in it). *)
Inductive failed_fetch : Result Response -> Prop :=
| transport_error (e : Exc) : failed_fetch (Raised e)
| malformed_payload : failed_fetch (Returned {| body := None |})
| missing_hourly (kv : list (string * json)) :
    dict_get "hourly" kv = None ->
    failed_fetch (Returned {| body := Some (JObj kv) |})
| payload_not_object (data : json) :
    (forall kv, data <> JObj kv) ->
    failed_fetch (Returned {| body := Some data |})
| hourly_not_object (kv : list (string * json)) (h : json) :
    dict_get "hourly" kv = Some h -> (forall o, h <> JObj o) ->
    failed_fetch (Returned {| body := Some (JObj kv) |})
| missing_array (kv h : list (string * json)) (k : string) :
    dict_get "hourly" kv = Some (JObj h) ->
    In k ["time"; "carbon_dioxide"; "methane"] -> dict_get k h = None ->
    failed_fetch (Returned {| body := Some (JObj kv) |}).

(** The payload holds an "hourly" object with the three arrays. *)
Definition hourly_arrays (data : json) (time co2 ch4 : list json) : Prop :=
  exists kv h,
    data = JObj kv /\ dict_get "hourly" kv = Some (JObj h) /\
    dict_get "time" h = Some (JArr time) /\
    dict_get "carbon_dioxide" h = Some (JArr co2) /\
    dict_get "methane" h = Some (JArr ch4).

(** The fetches the fetcher discards: the failed ones, and a payload with
    the three arrays when their lengths differ or one of the times does not
    parse. *)
Inductive discarded_fetch {lib : PandasLib} : Result Response -> Prop :=
| discarded_failed (out : Result Response) :
    failed_fetch out -> discarded_fetch out
| discarded_lengths (data : json) (time co2 ch4 : list json) :
    hourly_arrays data time co2 ch4 ->
    length time <> length co2 \/ length co2 <> length ch4 ->
    discarded_fetch (Returned {| body := Some data |})
| discarded_time (data : json) (time co2 ch4 : list json) (x : json) (e : Exc) :
    hourly_arrays data time co2 ch4 ->
    In x time ->
    parse_datetime (guess_datetime_format time) x = Raised e ->
    discarded_fetch (Returned {| body := Some data |}).

(** The Readings of a Series, row by row. *)
Definition Reading : Type := option Timestamp * json * json.

Definition readings (times : list (option Timestamp)) (co2 ch4 : list json)
  : list Reading :=
  combine (combine times co2) ch4.

Definition timestamp (r : Reading) : option Timestamp := fst (fst r).

(** The text of an export, in the words of the interface: the header
    line, then for each Reading a line of its time, its CO2 value and its
    CH4 value between commas, every line closed by the line terminator of the
    platform.  A missing time or value leaves its field empty. *)
Definition reading_line {lib : PandasLib}
           (times : list (option Timestamp)) (co2 ch4 : list json) (r : Reading)
  : string :=
  csv_field (match timestamp r with
             | Some t => csv_timestamp times t
             | None => ""
             end)
  ++ "," ++
  csv_field (match snd (fst r) with
             | JNull => ""
             | x => csv_value co2 x
             end)
  ++ "," ++
  csv_field (match snd r with
             | JNull => ""
             | x => csv_value ch4 x
             end).

Definition expected_csv {lib : PandasLib}
           (times : list (option Timestamp)) (co2 ch4 : list json) : string :=
  "Waktu,CO2_ppm,CH4_ppb" ++ newline_string linesep
  ++ fold_right (fun r rest =>
                   reading_line times co2 ch4 r ++ newline_string linesep ++ rest)
                "" (readings times co2 ch4).

Fixpoint count_char (c : ascii) (s : string) : nat :=
  match s with
  | EmptyString => O
  | String c' s' => ((if Ascii.eqb c c' then 1 else 0) + count_char c s')%nat
  end.

(** The line feeds of a text: one closes each line. *)
Definition line_breaks (s : string) : nat := count_char "010"%char s.

(** No printed field of a Reading holds a line feed. *)
Definition prints_one_line {lib : PandasLib}
           (times : list (option Timestamp)) (co2 ch4 : list json) : Prop :=
  Forall (fun r => line_breaks (reading_line times co2 ch4 r) = O)
         (readings times co2 ch4).

(** The three predicates on the timestamp of a Reading; NaT satisfies
    none. *)
Definition is_today (now : Timestamp) (x : option Timestamp) : bool :=
  match x with Some t => date_of t =? date_of now | None => false end.

Definition is_future (now : Timestamp) (x : option Timestamp) : bool :=
  match x with Some t => now <? t | None => false end.

Definition in_period (start_date end_date : date) (x : option Timestamp) : bool :=
  match x with
  | Some t => (start_date <=? date_of t) && (date_of t <=? end_date)
  | None => false
  end.

(** The common shape of lines 167-172 and 175-180: the three-way bucketing
    of an average by two thresholds. *)
Definition bucket (lo hi : Z) (avg : float) : Status :=
  if ltb avg (of_int lo) then Normal
  else if leb (of_int lo) avg && leb avg (of_int hi) then Waspada
  else Tinggi.

Definition view_predicate (v : View) : option Timestamp -> bool :=
  match v with
  | Realtime now => is_today now
  | Forecast now => is_future now
  | Period start_date end_date => in_period start_date end_date
  end.

Definition count_true (mask : list bool) : nat :=
  length (List.filter (fun b => b) mask).

(** Sample payloads. *)
Definition two_hours : json :=
  hourly_payload [JStr "2024-05-01T13:00"; JStr "2024-05-01T14:00"]
                 [JNum 420; JNum 460] [JNum 1900; JNum 1960].

Definition short_methane : json :=
  hourly_payload [JStr "2024-05-01T13:00"; JStr "2024-05-01T14:00"]
                 [JNum 420; JNum 460] [JNum 1900].


(** 2024-05-01T13:00 *)
Definition may_1st_13h : Timestamp := 1714568400000000000.

(** ** Rows, and the state of the window

    [iterrows] and [strftime] serve the table of the period view.  The
    window is the part of the Tk state the callbacks read and write: the
    packed children of [content_frame], the children of the graph and KPI
    frames, the rows of the table, the combobox variable and the pending
    [root.after] timers.  A callback is a state transformer that may raise;
    what it changed before raising stays changed. *)

Inductive Cell : Type :=
| Time (t : option Timestamp)
| Value (j : json).

Definition cells (c : Column) : list Cell :=
  match c with
  | ColDatetime l => map Time l
  | ColObject l => map Value l
  end.

Definition Row : Type := list (string * Cell).

(** [df.iterrows()]: one row per index, each row keyed by the column
    names. *)
Definition iterrows (df : DataFrame) : list Row :=
  map (fun i => map (fun kc => (fst kc, nth i (cells (snd kc)) (Value JNull))) df)
      (seq 0 (nrows df)).

(** [row[k]] *)
Definition row_get (row : Row) (k : string) : Result Cell :=
  match dict_get k row with
  | Some c => Returned c
  | None => Raised KeyError
  end.

(** "%Y-%m-%d %H:%M" of a timestamp (years of four digits, which covers
    the range of pandas timestamps). *)
Definition format_minute (t : Timestamp) : string :=
  let mins := (t mod ns_per_day) / ns_per_minute in
  let '(y, m, d) := civil_from_days (date_of t) in
  digits 4 y "" ++ "-" ++ digits 2 m "" ++ "-" ++ digits 2 d "" ++ " "
  ++ digits 2 (mins / 60) "" ++ ":" ++ digits 2 (mins mod 60) "".

(** [x.strftime("%Y-%m-%d %H:%M")]: NaT refuses [strftime], and a plain
    value has no such method. *)
Definition strftime_minute (x : Cell) : Result string :=
  match x with
  | Time (Some t) => Returned (format_minute t)
  | Time None => Raised ValueError
  | Value _ => Raised AttributeError
  end.

Module Gui.

(** The packed children of [content_frame]. *)
Inductive Child : Type :=
| TextLabel (text : string)
| Combobox (values : list string)
| GraphFrame
| KpiFrame
| DateEntry (mindate maxdate : date)
| TreeFrame
| ActionButton (text : string)
| SaveButton (label : string) (df : DataFrame).

(** [getattr(widget, "is_save_button", False)] *)
Definition is_save_button (c : Child) : bool :=
  match c with
  | SaveButton _ _ => true
  | _ => false
  end.

(** The two callbacks that reschedule themselves. *)
Inductive RefreshView : Type := RealtimeView | ForecastView.

Definition same_view (a b : RefreshView) : bool :=
  match a, b with
  | RealtimeView, RealtimeView | ForecastView, ForecastView => true
  | _, _ => false
  end.

Record Tk : Type := {
  content_frame : list Child;
  graph_frame : list Widget;
  kpi_frame : list Widget;
  tree : list (string * Cell * Cell);
  wilayah_var : string;
  timers : list (Z * RefreshView)
}.

Definition set_content (c : list Child) (s : Tk) : Tk :=
  {| content_frame := c; graph_frame := graph_frame s; kpi_frame := kpi_frame s;
     tree := tree s; wilayah_var := wilayah_var s; timers := timers s |}.

Definition set_graph (g : list Widget) (s : Tk) : Tk :=
  {| content_frame := content_frame s; graph_frame := g; kpi_frame := kpi_frame s;
     tree := tree s; wilayah_var := wilayah_var s; timers := timers s |}.

Definition set_kpi (k : list Widget) (s : Tk) : Tk :=
  {| content_frame := content_frame s; graph_frame := graph_frame s; kpi_frame := k;
     tree := tree s; wilayah_var := wilayah_var s; timers := timers s |}.

Definition set_tree (t : list (string * Cell * Cell)) (s : Tk) : Tk :=
  {| content_frame := content_frame s; graph_frame := graph_frame s;
     kpi_frame := kpi_frame s; tree := t; wilayah_var := wilayah_var s;
     timers := timers s |}.

Definition set_wilayah (name : string) (s : Tk) : Tk :=
  {| content_frame := content_frame s; graph_frame := graph_frame s;
     kpi_frame := kpi_frame s; tree := tree s; wilayah_var := name;
     timers := timers s |}.

Definition set_timers (t : list (Z * RefreshView)) (s : Tk) : Tk :=
  {| content_frame := content_frame s; graph_frame := graph_frame s;
     kpi_frame := kpi_frame s; tree := tree s; wilayah_var := wilayah_var s;
     timers := t |}.

(** The window before a view is opened. *)
Definition initial : Tk :=
  {| content_frame := []; graph_frame := []; kpi_frame := []; tree := [];
     wilayah_var := ""; timers := [] |}.

(** State transformers that may raise. *)
Definition UI (A : Type) : Type := Tk -> Result A * Tk.

Definition ret {A} (a : A) : UI A := fun s => (Returned a, s).

Definition ubind {A B} (m : UI A) (k : A -> UI B) : UI B :=
  fun s =>
    match m s with
    | (Returned a, s') => k a s'
    | (Raised e, s') => (Raised e, s')
    end.

Definition lift {A} (r : Result A) : UI A := fun s => (r, s).

Definition gets {A} (f : Tk -> A) : UI A := fun s => (Returned (f s), s).

Definition modify (f : Tk -> Tk) : UI unit := fun s => (Returned tt, f s).

Declare Scope ui_scope.
Delimit Scope ui_scope with ui.
Notation "x <~ m ;; k" := (ubind m (fun x => k))
  (at level 61, m at next level, right associativity) : ui_scope.
Notation "m >> k" := (ubind m (fun _ => k))
  (at level 61, right associativity) : ui_scope.
Local Open Scope ui_scope.

(** A [for] loop whose body may raise. *)
Fixpoint for_each {A} (l : list A) (body : A -> UI unit) : UI unit :=
  match l with
  | [] => ret tt
  | x :: l' => body x >> for_each l' body
  end.

(** [widget.pack()] on a new child of [content_frame]. *)
Definition pack (c : Child) : UI unit :=
  modify (fun s => set_content (content_frame s ++ [c]) s).

(** [root.after(ms, callback)] *)
Definition after (ms : Z) (v : RefreshView) : UI unit :=
  modify (fun s => set_timers (timers s ++ [(ms, v)]) s).

Definition refresh_interval : Z := 600000.

(** Lines 103-106.  Destroying the children of [content_frame] destroys
    the frames and the table inside them; no timer is cancelled. *)
Definition clear_content : UI unit :=
  modify (fun s => set_tree [] (set_kpi [] (set_graph [] (set_content [] s)))).

Section Callbacks.
Context {lib : PandasLib}.

(** Lines 112-148: the frame is emptied first, then filled. *)
Definition plot_graph (df : DataFrame) (title : string) : UI unit :=
  modify (set_graph []) >>
  w <~ lift (plot_graph df title) ;;
  modify (set_graph [w]).

(** Lines 154-197. *)
Definition show_kpi (df : DataFrame) : UI unit :=
  modify (set_kpi []) >>
  w <~ lift (show_kpi df) ;;
  modify (set_kpi [w]).

(** Lines 203-227: the save buttons already packed are destroyed, a new
    one is packed last. *)
Definition add_save_button (df : DataFrame) (label : string) : UI unit :=
  modify (fun s =>
            set_content (List.filter (fun c => negb (is_save_button c))
                                     (content_frame s)) s) >>
  pack (SaveButton label df).

(** Lines 260-269. *)
Definition update_graph (net : Network) (now : Timestamp) : UI unit :=
  name <~ gets wilayah_var ;;
  c <~ lift (wilayah name) ;;
  df <~ lift (get_air_quality_data net (fst c) (snd c)) ;;
  shown <~ lift (df_today now df) ;;
  plot_graph shown "CO₂ & CH₄ Hari Ini" >>
  show_kpi shown >>
  add_save_button shown "Simpan CSV Realtime" >>
  after refresh_interval RealtimeView.

(** Lines 301-309. *)
Definition update_forecast (net : Network) (now : Timestamp) : UI unit :=
  name <~ gets wilayah_var ;;
  c <~ lift (wilayah name) ;;
  df <~ lift (get_air_quality_data net (fst c) (snd c)) ;;
  shown <~ lift (df_forecast now df) ;;
  plot_graph shown "Forecast CO₂ & CH₄" >>
  add_save_button shown "Simpan CSV Forecast" >>
  after refresh_interval ForecastView.

(** Lines 393-396: one row of the table. *)
Definition tree_row (row : Row) : Result (string * Cell * Cell) :=
  (waktu <- row_get row "Waktu" ;;
   waktu_str <- strftime_minute waktu ;;
   co2 <- row_get row "CO2_ppm" ;;
   ch4 <- row_get row "CH4_ppb" ;;
   Returned (waktu_str, co2, ch4))%py.

(** Lines 383-397. *)
Definition ambil_data (net : Network) (start_date end_date : date) : UI unit :=
  name <~ gets wilayah_var ;;
  c <~ lift (wilayah name) ;;
  df <~ lift (get_air_quality_data net (fst c) (snd c)) ;;
  period <~ lift (df_period start_date end_date df) ;;
  modify (set_tree []) >>
  for_each (iterrows period)
           (fun row =>
              r <~ lift (tree_row row) ;;
              modify (fun s => set_tree (tree s ++ [r]) s)) >>
  add_save_button period "Simpan CSV Periode".

Definition first_wilayah : string := hd "" (map fst wilayah_coords).

(** Lines 233-272. *)
Definition show_realtime (net : Network) (now : Timestamp) : UI unit :=
  clear_content >>
  pack (TextLabel "Dashboard Realtime (Hari ini)") >>
  modify (set_wilayah first_wilayah) >>
  pack (TextLabel "Pilih Wilayah:") >>
  pack (Combobox (map fst wilayah_coords)) >>
  pack GraphFrame >>
  pack KpiFrame >>
  update_graph net now.

(** Lines 276-312. *)
Definition show_forecast (net : Network) (now : Timestamp) : UI unit :=
  clear_content >>
  pack (TextLabel "Proyeksi Beberapa Jam Kedepan CO₂ & CH₄") >>
  modify (set_wilayah first_wilayah) >>
  pack (TextLabel "Pilih Wilayah:") >>
  pack (Combobox (map fst wilayah_coords)) >>
  pack GraphFrame >>
  update_forecast net now.

(** Lines 318-404; the dates offered run from seven days before the day
    the view is opened to that day. *)
Definition show_data_periode (now : Timestamp) : UI unit :=
  clear_content >>
  pack (TextLabel "Data Periode CO₂ & CH₄") >>
  modify (set_wilayah first_wilayah) >>
  pack (TextLabel "Pilih Wilayah:") >>
  pack (Combobox (map fst wilayah_coords)) >>
  let max_days := 7 in
  let today := date_of now in
  let min_date := today - max_days in
  pack (TextLabel "Tanggal Mulai:") >>
  pack (DateEntry min_date today) >>
  pack (TextLabel "Tanggal Akhir:") >>
  pack (DateEntry min_date today) >>
  pack TreeFrame >>
  pack (ActionButton "Ambil Data").

(** The callback a view reschedules, and binds to its combobox. *)
Definition callback (v : RefreshView) (net : Network) (now : Timestamp) : UI unit :=
  match v with
  | RealtimeView => update_graph net now
  | ForecastView => update_forecast net now
  end.

End Callbacks.

(** The window [add_save_button] leaves. *)
Definition with_save_button (df : DataFrame) (label : string) (s : Tk) : Tk :=
  set_content
    (List.filter (fun c => negb (is_save_button c)) (content_frame s)
     ++ [SaveButton label df]) s.

(** The main loop while one refreshing view is shown.  Tk runs a callback
    and prints the exception it raises, if any; the loop goes on. *)
Record Loop : Type := {
  window : Tk;
  reported : list Exc
}.

Definition run_callback (m : UI unit) (st : Loop) : Loop :=
  match m (window st) with
  | (Returned _, w) => {| window := w; reported := reported st |}
  | (Raised e, w) => {| window := w; reported := e :: reported st |}
  end.

Fixpoint remove_nth {A} (i : nat) (l : list A) : list A :=
  match i, l with
  | _, [] => []
  | O, _ :: l' => l'
  | S i', x :: l' => x :: remove_nth i' l'
  end.

(** The user picks a location in the combobox, or a pending timer fires. *)
Inductive Event : Type :=
| Select (name : string)
| Fire (i : nat).

(** One event in the view [v], with the network and the clock as they are
    when it happens.  [None]: the event cannot happen in this state (a name
    the combobox does not offer, no such timer) or is outside the model (a
    timer left over from another view, whose frames are destroyed). *)
Definition handle {lib : PandasLib} (v : RefreshView)
           (world : Network * Timestamp * Event) (st : Loop) : option Loop :=
  let '(net, now, e) := world in
  match e with
  | Select name =>
      if existsb (String.eqb name) (map fst wilayah_coords)
      then Some (run_callback (modify (set_wilayah name) >> callback v net now) st)
      else None
  | Fire i =>
      match nth_error (timers (window st)) i with
      | Some (_, v') =>
          if same_view v v'
          then Some (run_callback
                       (modify (fun s => set_timers (remove_nth i (timers s)) s) >>
                        callback v net now) st)
          else None
      | None => None
      end
  end.

Fixpoint run {lib : PandasLib} (v : RefreshView)
         (trace : list (Network * Timestamp * Event)) (st : Loop) : option Loop :=
  match trace with
  | [] => Some st
  | world :: trace' =>
      match handle v world st with
      | Some st' => run v trace' st'
      | None => None
      end
  end.

Definition selections (trace : list (Network * Timestamp * Event)) : nat :=
  length (List.filter (fun w => match snd w with Select _ => true | Fire _ => false end)
                      trace).

End Gui.

(** ** Properties *)

Section Fetcher.
Context {lib : PandasLib}.


Lemma mapM_Forall2 {A B} (f : A -> Result B) l ys :
  mapM f l = Returned ys <-> Forall2 (fun x y => f x = Returned y) l ys.
Proof.
  revert ys; induction l as [|x l IH]; intros ys; simpl.
  - split.
    + intros H; injection H as <-; constructor.
    + intros H; inversion H; reflexivity.
  - destruct (f x) as [y|e] eqn:Hx; simpl.
    + destruct (mapM f l) as [ys'|e] eqn:Hl; simpl.
      * split.
        -- intros H; injection H as <-. constructor; [exact Hx|]. now apply IH.
        -- intros H; inversion H as [|? ? ? ? Hy Hr]; subst.
           rewrite Hx in Hy; injection Hy as <-.
           apply IH in Hr. injection Hr as <-. reflexivity.
      * split; [discriminate|].
        intros H; inversion H as [|? ? ? ? Hy Hr]; subst.
        apply IH in Hr; discriminate.
    + split; [discriminate|].
      intros H; inversion H as [|? ? ? ? Hy Hr]; subst.
      rewrite Hx in Hy; discriminate.
Qed.

Lemma mapM_total {A B} (f : A -> Result B) l :
  (forall x, In x l -> exists y, f x = Returned y) ->
  exists ys, mapM f l = Returned ys.
Proof.
  induction l as [|x l IH]; intros H; simpl.
  - now exists [].
  - destruct (H x (or_introl eq_refl)) as [y ->].
    destruct IH as [ys ->]; [intros; apply H; now right|].
    now exists (y :: ys).
Qed.

Lemma as_columns_names d df :
  as_columns d = Some df -> column_names df = map fst d.
Proof.
  revert df; induction d as [|[k a] d IH]; intros df; simpl.
  - intros H; injection H as <-; reflexivity.
  - destruct (as_column a); [|discriminate].
    destruct (as_columns d) as [cols|]; [|discriminate].
    intros H; injection H as <-; simpl. f_equal. now apply IH.
Qed.

(** [pd.DataFrame(d)] names its columns after the keys of [d]. *)
Lemma DataFrame_of_dict_names d df :
  DataFrame_of_dict d = Returned df -> column_names df = map fst d.
Proof.
  unfold DataFrame_of_dict.
  destruct (as_columns d) as [cols|] eqn:Hc.
  - destruct (same_length cols); [|discriminate].
    intros H; injection H as <-. now apply as_columns_names.
  - destruct (homogenize_other (map snd d)) as [f|]; simpl; [|discriminate].
    intros H; injection H as <-. unfold column_names.
    rewrite map_map. reflexivity.
Qed.

(** The [try] body of the fetcher, when the payload is a dict with an
    "hourly" dict that holds the three arrays. *)
Lemma fetch_arrays net lat lon data time co2 ch4 :
  net (air_quality_request lat lon) = Returned {| body := Some data |} ->
  hourly_arrays data time co2 ch4 ->
  get_air_quality_data net lat lon =
  try_except
    (ts <- mapM (parse_datetime (guess_datetime_format time)) time ;;
     if Nat.eqb (length co2) (length ts) && Nat.eqb (length ch4) (length ts)
     then Returned (series ts co2 ch4) else Raised ValueError)
    (Returned empty_frame).
Proof.
  intros Hnet (kv & h & -> & Hh & Ht & Hc & Hm).
  unfold get_air_quality_data. rewrite Hnet. simpl.
  rewrite Hh. simpl. rewrite Ht, Hc, Hm. simpl.
  destruct (mapM _ time) as [ts|e]; simpl; [|reflexivity].
  unfold DataFrame_of_dict. simpl.
  rewrite andb_true_r. reflexivity.
Qed.

End Fetcher.

Section FetcherSpec.
Context {lib : PandasLib}.


Lemma failed_fetch_empty (net : Network) (lat lon : Q) :
  failed_fetch (net (air_quality_request lat lon)) ->
  get_air_quality_data net lat lon = Returned empty_frame.
Proof.
  intros Hf. unfold get_air_quality_data.
  remember (net (air_quality_request lat lon)) as out eqn:Hout.
  destruct Hf as [e| |kv Hkv|data Hdata|kv h Hh Hno|kv h k Hh Hk Hnone]; simpl.
  - reflexivity.
  - reflexivity.
  - rewrite Hkv. reflexivity.
  - destruct data as [|b|q|s|l|kv]; simpl; try reflexivity.
    + now destruct (str_contains "hourly" s).
    + now destruct (existsb (is_JStr "hourly") l).
    + now destruct (Hdata kv).
  - rewrite Hh. simpl.
    destruct h as [|b|q|s|l|o]; simpl; try reflexivity.
    now destruct (Hno o).
  - rewrite Hh. simpl.
    destruct (dict_get "time" h) as [t|] eqn:Ht; simpl; [|reflexivity].
    destruct (to_datetime t) as [ts|]; simpl; [|reflexivity].
    destruct (dict_get "carbon_dioxide" h) as [c|] eqn:Hc; simpl; [|reflexivity].
    destruct (dict_get "methane" h) as [m|] eqn:Hm; simpl; [|reflexivity].
    exfalso. simpl in Hk.
    destruct Hk as [<-|[<-|[<-|[]]]]; congruence.
Qed.

Lemma mapM_raises {A B} (f : A -> Result B) (l : list A) (x : A) (e : Exc) :
  In x l -> f x = Raised e -> exists e', mapM f l = Raised e'.
Proof.
  induction l as [|y l IH]; intros Hin Hx; [destruct Hin|]. simpl.
  destruct (f y) as [b|e1] eqn:Hy; simpl; [|eauto].
  destruct Hin as [->|Hin]; [congruence|].
  destruct (IH Hin Hx) as [e' ->]. simpl. eauto.
Qed.

(** Whatever the fetcher discards comes back as the empty Series. *)
Lemma discarded_fetch_empty (net : Network) (lat lon : Q) :
  discarded_fetch (net (air_quality_request lat lon)) ->
  get_air_quality_data net lat lon = Returned empty_frame.
Proof.
  intros Hd.
  remember (net (air_quality_request lat lon)) as out eqn:Hout.
  destruct Hd as [out Hf|data time co2 ch4 Harr Hne|data time co2 ch4 x e Harr Hin Hx].
  - subst out. now apply failed_fetch_empty.
  - rewrite (fetch_arrays _ _ _ _ _ _ _ (eq_sym Hout) Harr).
    destruct (mapM _ time) as [ts|e] eqn:Hts; simpl; [|reflexivity].
    pose proof (Forall2_length (proj1 (mapM_Forall2 _ _ _) Hts)) as Hlen.
    destruct (Nat.eqb_spec (length co2) (length ts)) as [H1|H1];
      destruct (Nat.eqb_spec (length ch4) (length ts)) as [H2|H2];
      simpl; try reflexivity.
    exfalso. destruct Hne as [Hne|Hne]; apply Hne; congruence.
  - rewrite (fetch_arrays _ _ _ _ _ _ _ (eq_sym Hout) Harr).
    destruct (mapM_raises _ _ _ _ Hin Hx) as [e' ->]. reflexivity.
Qed.


(** C2, as the code has it.  When the "hourly" object holds three arrays
    of one common length and every element of [time] parses, the fetcher
    returns a Series of that length (the length of both gas arrays, hence
    of the shorter) whose i-th timestamp is the parse of the i-th element
    of [time].  When the lengths differ, [pd.DataFrame] refuses the arrays
    and the fetcher returns the empty Series. *)
Theorem fetch_parallel_arrays (net : Network) (lat lon : Q) (data : json)
        (time co2 ch4 : list json) :
  net (air_quality_request lat lon) = Returned {| body := Some data |} ->
  hourly_arrays data time co2 ch4 ->
  (length time = length co2 -> length co2 = length ch4 ->
   (forall x, In x time ->
      exists t, parse_datetime (guess_datetime_format time) x = Returned t) ->
   exists times,
     get_air_quality_data net lat lon = Returned (series times co2 ch4) /\
     nrows (series times co2 ch4) = Nat.min (length co2) (length ch4) /\
     Forall2 (fun x t =>
                parse_datetime (guess_datetime_format time) x = Returned t)
             time times) /\
  (length time <> length co2 \/ length co2 <> length ch4 ->
   get_air_quality_data net lat lon = Returned empty_frame).
Proof.
  intros Hnet Harr. rewrite (fetch_arrays _ _ _ _ _ _ _ Hnet Harr).
  split.
  - intros Htc Hcm Hparse.
    destruct (mapM_total _ _ Hparse) as [ts Hts].
    pose proof (proj1 (mapM_Forall2 _ _ _) Hts) as HF.
    pose proof (Forall2_length HF) as Hlen.
    exists ts. rewrite Hts. simpl.
    assert (H1 : Nat.eqb (length co2) (length ts) = true)
      by (apply Nat.eqb_eq; congruence).
    assert (H2 : Nat.eqb (length ch4) (length ts) = true)
      by (apply Nat.eqb_eq; congruence).
    rewrite H1, H2. simpl.
    repeat split; [|exact HF].
    rewrite <- Hcm, Nat.min_id. congruence.
  - intros Hne.
    destruct (mapM _ time) as [ts|e] eqn:Hts; simpl; [|reflexivity].
    pose proof (Forall2_length (proj1 (mapM_Forall2 _ _ _) Hts)) as Hlen.
    destruct (Nat.eqb_spec (length co2) (length ts)) as [H1|H1];
      destruct (Nat.eqb_spec (length ch4) (length ts)) as [H2|H2];
      simpl; try reflexivity.
    exfalso. destruct Hne as [Hne|Hne]; apply Hne; congruence.
Qed.

(** C9.  Whatever the network does, the fetcher returns a frame with
    exactly the columns Waktu, CO2_ppm, CH4_ppb in that order, and every
    Series a view filter makes of that frame has these three columns too. *)
Theorem three_columns_everywhere (net : Network) (lat lon : Q) :
  exists df,
    get_air_quality_data net lat lon = Returned df /\
    column_names df = ["Waktu"; "CO2_ppm"; "CH4_ppb"] /\
    (forall v df', view_filter v df = Returned df' ->
                   column_names df' = ["Waktu"; "CO2_ppm"; "CH4_ppb"]).
Proof.
  assert (Hfilter : forall v (df df' : DataFrame),
             view_filter v df = Returned df' ->
             column_names df' = column_names df).
  { assert (Hmask : forall (df : DataFrame) mask,
               column_names (getitem_mask df mask) = column_names df).
    { intros df mask. unfold column_names, getitem_mask.
      rewrite map_map. reflexivity. }
    intros v df df' H.
    destruct v; simpl in H;
      unfold df_today, df_forecast, df_period in H;
      destruct (getitem_col df "Waktu") as [c|]; simpl in H; try discriminate.
    - destruct (dt_date c); simpl in H; [|discriminate].
      injection H as <-. apply Hmask.
    - destruct (gt_datetime c now); simpl in H; [|discriminate].
      injection H as <-. apply Hmask.
    - destruct (dt_date c); simpl in H; [|discriminate].
      injection H as <-. apply Hmask. }
  assert (Hfetch : exists df,
             get_air_quality_data net lat lon = Returned df /\
             column_names df = ["Waktu"; "CO2_ppm"; "CH4_ppb"]).
  { unfold get_air_quality_data.
    match goal with
    | |- exists df, try_except ?b ?h = _ /\ _ =>
        destruct b as [df|e] eqn:Hbody; simpl
    end.
    - exists df. split; [reflexivity|].
      destruct (net _) as [resp|]; simpl in Hbody; [|discriminate].
      destruct (Response_json resp) as [data|]; simpl in Hbody; [|discriminate].
      destruct (contains "hourly" data) as [has|]; simpl in Hbody; [|discriminate].
      destruct has; simpl in Hbody.
      + destruct (getitem data "hourly") as [h|]; simpl in Hbody; [|discriminate].
        destruct (getitem h "time") as [t|]; simpl in Hbody; [|discriminate].
        destruct (to_datetime t) as [ts|]; simpl in Hbody; [|discriminate].
        destruct (getitem h "carbon_dioxide") as [c|]; simpl in Hbody; [|discriminate].
        destruct (getitem h "methane") as [m|]; simpl in Hbody; [|discriminate].
        apply DataFrame_of_dict_names in Hbody. exact Hbody.
      + injection Hbody as <-. reflexivity.
    - exists empty_frame. split; reflexivity. }
  destruct Hfetch as (df & Hget & Hcols).
  exists df. repeat split; [exact Hget|exact Hcols|].
  intros v df' H. rewrite (Hfilter _ _ _ H). exact Hcols.
Qed.

End FetcherSpec.

Section Classifier.

Lemma Qltb_lt (x y : Q) : Qltb x y = true <-> (x < y)%Q.
Proof.
  unfold Qltb. rewrite Qlt_alt.
  destruct (x ?= y)%Q; split; congruence.
Qed.

Lemma Qleb_le (x y : Q) : Qleb x y = true <-> (x <= y)%Q.
Proof.
  unfold Qleb. rewrite Qle_alt.
  destruct (x ?= y)%Q; split; congruence.
Qed.

Lemma Qltb_ge (x y : Q) : Qltb x y = false <-> (y <= x)%Q.
Proof.
  rewrite <- not_true_iff_false, Qltb_lt. split.
  - apply Qnot_lt_le.
  - intros H H'. exact (Qlt_not_le _ _ H' H).
Qed.

Lemma Qleb_gt (x y : Q) : Qleb x y = false <-> (y < x)%Q.
Proof.
  rewrite <- not_true_iff_false, Qleb_le. split.
  - apply Qnot_le_lt.
  - intros H H'. exact (Qlt_not_le _ _ H H').
Qed.

Lemma bucket_finite (lo hi : Z) (q : Q) :
  ((q < inject_Z lo)%Q -> bucket lo hi (Fin q) = Normal) /\
  ((inject_Z lo <= q <= inject_Z hi)%Q -> bucket lo hi (Fin q) = Waspada) /\
  ((inject_Z lo <= inject_Z hi)%Q -> (inject_Z hi < q)%Q ->
   bucket lo hi (Fin q) = Tinggi).
Proof.
  unfold bucket, of_int; simpl. repeat split.
  - intros H. apply Qltb_lt in H. now rewrite H.
  - intros [H1 H2].
    assert (Hn : Qltb q (inject_Z lo) = false) by now apply Qltb_ge.
    apply Qleb_le in H1, H2. now rewrite Hn, H1, H2.
  - intros Hlh H.
    assert (Hn : Qltb q (inject_Z lo) = false).
    { apply Qltb_ge. apply Qlt_le_weak. eapply Qle_lt_trans; eassumption. }
    assert (Hh : Qleb q (inject_Z hi) = false) by now apply Qleb_gt.
    rewrite Hn, Hh, andb_false_r. reflexivity.
Qed.

(** A larger average never falls into a lower bucket. *)
Lemma bucket_monotone (lo hi : Z) (x x' : float) :
  (lo <= hi)%Z -> leb x x' = true ->
  (status_levels (bucket lo hi x) <= status_levels (bucket lo hi x'))%Z.
Proof.
  intros Hlh Hle.
  assert (HQ : (inject_Z lo <= inject_Z hi)%Q) by now rewrite <- Zle_Qle.
  unfold bucket, of_int.
  destruct x as [a| | |], x' as [b| | |]; simpl in *; try discriminate;
    try (destruct (Qltb _ _); [|destruct (_ && _)]; simpl; lia).
  - apply Qleb_le in Hle.
    destruct (Qltb a (inject_Z lo)) eqn:Ha; simpl.
    + destruct (Qltb b _); [|destruct (_ && _)]; simpl; lia.
    + apply Qltb_ge in Ha.
      assert (Hb : Qltb b (inject_Z lo) = false).
      { apply Qltb_ge. eapply Qle_trans; eassumption. }
      assert (Hlb : Qleb (inject_Z lo) b = true).
      { apply Qleb_le. eapply Qle_trans; eassumption. }
      assert (Hla : Qleb (inject_Z lo) a = true) by now apply Qleb_le.
      rewrite Hb, Hlb, Hla. simpl.
      destruct (Qleb b (inject_Z hi)) eqn:Hbh; simpl.
      * apply Qleb_le in Hbh.
        assert (Hah : Qleb a (inject_Z hi) = true).
        { apply Qleb_le. eapply Qle_trans; eassumption. }
        rewrite Hah. simpl. lia.
      * destruct (Qleb a _); simpl; lia.
Qed.

Lemma status_co2_bucket avg : status_co2 avg = bucket 450 500 avg.
Proof. reflexivity. Qed.

Lemma status_ch4_bucket avg : status_ch4 avg = bucket 1950 2000 avg.
Proof. reflexivity. Qed.

Lemma overall_status_level (s1 s2 : Status) :
  status_levels (overall_status s1 s2)
  = Z.max (status_levels s1) (status_levels s2).
Proof. destruct s1, s2; reflexivity. Qed.

End Classifier.

Section ClassifierSpec.

(** C3.  The CO2 status of the realtime view is the three-way bucketing of
    the averaged CO2 value, for every finite average: below 450 ppm
    Normal, from 450 to 500 ppm (both included) Waspada, above 500 ppm
    Tinggi. *)
Theorem status_co2_thresholds (co2_avg : Q) :
  ((co2_avg < 450)%Q -> status_co2 (Fin co2_avg) = Normal) /\
  ((450 <= co2_avg <= 500)%Q -> status_co2 (Fin co2_avg) = Waspada) /\
  ((500 < co2_avg)%Q -> status_co2 (Fin co2_avg) = Tinggi).
Proof.
  rewrite status_co2_bucket.
  destruct (bucket_finite 450 500 co2_avg) as (H1 & H2 & H3).
  repeat split; [exact H1|exact H2|].
  apply H3. discriminate.
Qed.

Lemma status_co2_thresholds_witness :
  ((440 < 450)%Q /\ status_co2 (Fin 440) = Normal) /\
  ((450 <= 460 <= 500)%Q /\ status_co2 (Fin 460) = Waspada) /\
  ((500 < 501)%Q /\ status_co2 (Fin 501) = Tinggi).
Proof.
  assert (Ha : (440 < 450)%Q) by reflexivity.
  assert (Hb : (450 <= 460 <= 500)%Q) by (split; discriminate).
  assert (Hc : (500 < 501)%Q) by reflexivity.
  split; [split; [exact Ha|]|split; split; [exact Hb| |exact Hc|]].
  - exact (proj1 (status_co2_thresholds 440) Ha).
  - exact (proj1 (proj2 (status_co2_thresholds 460)) Hb).
  - exact (proj2 (proj2 (status_co2_thresholds 501)) Hc).
Defined.

(** C10.  The CH4 status is the three-way bucketing of the averaged CH4
    value, for every finite average: below 1950 ppb Normal, from 1950 to
    2000 ppb (both included) Waspada, above 2000 ppb Tinggi. *)
Theorem status_ch4_thresholds (ch4_avg : Q) :
  ((ch4_avg < 1950)%Q -> status_ch4 (Fin ch4_avg) = Normal) /\
  ((1950 <= ch4_avg <= 2000)%Q -> status_ch4 (Fin ch4_avg) = Waspada) /\
  ((2000 < ch4_avg)%Q -> status_ch4 (Fin ch4_avg) = Tinggi).
Proof.
  rewrite status_ch4_bucket.
  destruct (bucket_finite 1950 2000 ch4_avg) as (H1 & H2 & H3).
  repeat split; [exact H1|exact H2|].
  apply H3. discriminate.
Qed.

Lemma status_ch4_thresholds_witness :
  ((1000 < 1950)%Q /\ status_ch4 (Fin 1000) = Normal) /\
  ((1950 <= 1950 <= 2000)%Q /\ status_ch4 (Fin 1950) = Waspada) /\
  ((2000 < 2000.5)%Q /\ status_ch4 (Fin 2000.5) = Tinggi).
Proof.
  assert (Ha : (1000 < 1950)%Q) by reflexivity.
  assert (Hb : (1950 <= 1950 <= 2000)%Q) by (split; discriminate).
  assert (Hc : (2000 < 2000.5)%Q) by reflexivity.
  split; [split; [exact Ha|]|split; split; [exact Hb| |exact Hc|]].
  - exact (proj1 (status_ch4_thresholds 1000) Ha).
  - exact (proj1 (proj2 (status_ch4_thresholds 1950)) Hb).
  - exact (proj2 (proj2 (status_ch4_thresholds 2000.5)) Hc).
Defined.

(** C4.  The combined status is one of the two per-gas statuses and its
    rank under Normal < Waspada < Tinggi is the larger of their ranks.
    Averages of 460 ppm CO2 and 1000 ppb CH4 give Waspada, Normal and the
    combined status Waspada. *)
Theorem overall_status_higher (s_co2 s_ch4 : Status) :
  (overall_status s_co2 s_ch4 = s_co2 \/ overall_status s_co2 s_ch4 = s_ch4) /\
  status_levels (overall_status s_co2 s_ch4)
  = Z.max (status_levels s_co2) (status_levels s_ch4) /\
  status_levels Normal < status_levels Waspada < status_levels Tinggi /\
  status_co2 (Fin 460) = Waspada /\
  status_ch4 (Fin 1000) = Normal /\
  kpi_status (Fin 460) (Fin 1000) = Waspada.
Proof.
  split; [destruct s_co2, s_ch4; auto|].
  split; [apply overall_status_level|].
  repeat split.
Qed.

(** C5.  Raising the averaged CO2 value, or the averaged CH4 value, with
    the other average held fixed, never lowers the rank of the combined
    status.  The fixed average may be any float, NaN included. *)
Theorem kpi_status_monotone (low high fixed : float) :
  leb low high = true ->
  status_levels (kpi_status low fixed) <= status_levels (kpi_status high fixed) /\
  status_levels (kpi_status fixed low) <= status_levels (kpi_status fixed high).
Proof.
  intros Hle. unfold kpi_status.
  rewrite !overall_status_level.
  assert (Hco2 : status_levels (status_co2 low) <= status_levels (status_co2 high))
    by exact (bucket_monotone 450 500 low high ltac:(lia) Hle).
  assert (Hch4 : status_levels (status_ch4 low) <= status_levels (status_ch4 high))
    by exact (bucket_monotone 1950 2000 low high ltac:(lia) Hle).
  split; lia.
Qed.

Lemma kpi_status_monotone_witness :
  leb (Fin 440) (Fin 460) = true /\
  status_levels (kpi_status (Fin 440) (Fin 1000))
  <= status_levels (kpi_status (Fin 460) (Fin 1000)) /\
  status_levels (kpi_status (Fin 1000) (Fin 440))
  <= status_levels (kpi_status (Fin 1000) (Fin 460)).
Proof.
  split; [reflexivity|].
  apply (kpi_status_monotone (Fin 440) (Fin 460) (Fin 1000)). reflexivity.
Defined.

End ClassifierSpec.

Section Masks.
Context {A : Type}.

Lemma select_nil (mask : list bool) : select mask (@nil A) = [].
Proof. destruct mask; reflexivity. Qed.

Lemma select_map_filter (p : A -> bool) (l : list A) :
  select (map p l) l = List.filter p l.
Proof.
  induction l as [|x l IH]; simpl; [reflexivity|].
  destruct (p x); now rewrite IH.
Qed.

Lemma count_true_map (p : A -> bool) (l : list A) :
  count_true (map p l) = length (List.filter p l).
Proof.
  unfold count_true. induction l as [|x l IH]; simpl; [reflexivity|].
  destruct (p x); simpl; now rewrite IH.
Qed.

Lemma map_filter_true (p : A -> bool) (l : list A) :
  map p (List.filter p l) = repeat true (length (List.filter p l)).
Proof.
  induction l as [|x l IH]; simpl; [reflexivity|].
  destruct (p x) eqn:Hx; simpl; [rewrite Hx|]; now rewrite IH.
Qed.

Lemma select_length (mask : list bool) (l : list A) :
  (length (select mask l) <= count_true mask)%nat.
Proof.
  unfold count_true. revert l; induction mask as [|b mask IH]; intros l.
  - reflexivity.
  - destruct l as [|x l]; simpl; [lia|].
    destruct b; simpl; specialize (IH l); lia.
Qed.

Lemma select_all (n : nat) (l : list A) :
  (length l <= n)%nat -> select (repeat true n) l = l.
Proof.
  revert n; induction l as [|x l IH]; intros n Hn.
  - apply select_nil.
  - destruct n as [|n]; simpl in *; [lia|].
    rewrite IH; [reflexivity|lia].
Qed.

(** Selecting with a mask, then with an all-true mask that is long enough,
    is selecting once. *)
Lemma select_twice (mask : list bool) (l : list A) (n : nat) :
  (count_true mask <= n)%nat ->
  select (repeat true n) (select mask l) = select mask l.
Proof.
  intros Hn. apply select_all.
  pose proof (select_length mask l). lia.
Qed.

End Masks.

Section Frames.

Lemma getitem_mask_twice (df : DataFrame) (mask : list bool) (n : nat) :
  (count_true mask <= n)%nat ->
  getitem_mask (getitem_mask df mask) (repeat true n) = getitem_mask df mask.
Proof.
  intros Hn. unfold getitem_mask. rewrite map_map.
  apply map_ext. intros [k c]; simpl. f_equal.
  destruct c; simpl; f_equal; now apply select_twice.
Qed.

Lemma getitem_col_mask (df : DataFrame) (mask : list bool) (k : string) (c : Column) :
  getitem_col df k = Returned c ->
  getitem_col (getitem_mask df mask) k = Returned (select_col mask c).
Proof.
  unfold getitem_col.
  induction df as [|[k' c'] df IH]; simpl; [discriminate|].
  destruct (String.eqb k k').
  - intros H; injection H as <-; reflexivity.
  - exact IH.
Qed.

Lemma mask_and_map {B} (f g : B -> bool) (l : list B) :
  mask_and (map f l) (map g l) = map (fun x => f x && g x) l.
Proof.
  unfold mask_and. induction l as [|x l IH]; simpl; [reflexivity|].
  now rewrite IH.
Qed.

(** A filter whose mask is a predicate of the datetime column, written as
    the source writes it. *)
Lemma mask_of_predicate (p : option Timestamp -> bool) (df : DataFrame)
      (l : list (option Timestamp)) :
  getitem_col df "Waktu" = Returned (ColDatetime l) ->
  let df' := getitem_mask df (map p l) in
  getitem_col df' "Waktu" = Returned (ColDatetime (List.filter p l)) /\
  getitem_mask df' (map p (List.filter p l)) = df'.
Proof.
  intros Hw df'. split.
  - unfold df'. rewrite (getitem_col_mask _ _ _ _ Hw). simpl.
    now rewrite select_map_filter.
  - rewrite map_filter_true. apply getitem_mask_twice.
    now rewrite count_true_map.
Qed.

Lemma today_mask (now : Timestamp) (l : list (option Timestamp)) :
  map (date_eq (date_of now)) (map (option_map date_of) l)
  = map (is_today now) l.
Proof. rewrite map_map. apply map_ext. now intros [t|]. Qed.

Lemma period_mask (start_date end_date : date) (l : list (option Timestamp)) :
  mask_and (map (date_ge start_date) (map (option_map date_of) l))
           (map (date_le end_date) (map (option_map date_of) l))
  = map (in_period start_date end_date) l.
Proof.
  rewrite mask_and_map, map_map. apply map_ext. now intros [t|].
Qed.

Lemma readings_select (p : option Timestamp -> bool)
      (times : list (option Timestamp)) (co2 ch4 : list json) :
  readings (select (map p times) times) (select (map p times) co2)
           (select (map p times) ch4)
  = List.filter (fun r => p (timestamp r)) (readings times co2 ch4).
Proof.
  unfold readings.
  revert co2 ch4; induction times as [|t times IH]; intros co2 ch4.
  - reflexivity.
  - destruct co2 as [|c co2]; simpl.
    + now rewrite combine_nil.
    + destruct ch4 as [|m ch4]; simpl.
      * now rewrite combine_nil.
      * unfold timestamp at 1; simpl.
        destruct (p t); simpl; now rewrite IH.
Qed.

End Frames.

Section ViewsSpec.
Context {lib : PandasLib}.

Lemma mapM_select {A} (f : A -> Result bool) (l : list A) (mask : list bool) :
  mapM f l = Returned mask ->
  mapM f (select mask l) = Returned (repeat true (count_true mask)).
Proof.
  intros H. apply mapM_Forall2 in H.
  induction H as [|x b l mask Hx _ IH]; [reflexivity|].
  destruct b; simpl.
  - rewrite Hx; simpl. unfold count_true in *; simpl. now rewrite IH.
  - exact IH.
Qed.

Lemma df_today_spec (now : Timestamp) (df : DataFrame) (l : list (option Timestamp)) :
  getitem_col df "Waktu" = Returned (ColDatetime l) ->
  df_today now df = Returned (getitem_mask df (map (is_today now) l)).
Proof.
  intros Hw. unfold df_today. rewrite Hw. simpl. now rewrite today_mask.
Qed.

Lemma df_forecast_spec (now : Timestamp) (df : DataFrame) (l : list (option Timestamp)) :
  getitem_col df "Waktu" = Returned (ColDatetime l) ->
  df_forecast now df = Returned (getitem_mask df (map (is_future now) l)).
Proof. intros Hw. unfold df_forecast. now rewrite Hw. Qed.

Lemma df_period_spec (start_date end_date : date) (df : DataFrame)
      (l : list (option Timestamp)) :
  getitem_col df "Waktu" = Returned (ColDatetime l) ->
  df_period start_date end_date df
  = Returned (getitem_mask df (map (in_period start_date end_date) l)).
Proof.
  intros Hw. unfold df_period. rewrite Hw. simpl. now rewrite period_mask.
Qed.

(** On the empty Series of a failed fetch no column is datetime64: the two
    filters that go through [.dt] raise, the comparison of the forecast
    view has nothing to compare. *)
Lemma filters_on_empty_frame (now : Timestamp) (start_date end_date : date) :
  df_today now empty_frame = Raised AttributeError /\
  df_period start_date end_date empty_frame = Raised AttributeError /\
  df_forecast now empty_frame = Returned empty_frame.
Proof. repeat split. Qed.

Lemma view_filter_spec (v : View) (df : DataFrame) (l : list (option Timestamp)) :
  getitem_col df "Waktu" = Returned (ColDatetime l) ->
  view_filter v df = Returned (getitem_mask df (map (view_predicate v) l)).
Proof.
  intros Hw. destruct v; simpl.
  - now apply df_today_spec.
  - now apply df_forecast_spec.
  - now apply df_period_spec.
Qed.

(** C6.  Each view filter is idempotent: when the filter of a view returns
    a Series, applying it again (same view, same clock reading or dates)
    returns that same Series. *)
Theorem view_filter_idempotent (v : View) (df df' : DataFrame) :
  view_filter v df = Returned df' -> view_filter v df' = Returned df'.
Proof.
  intros H.
  destruct (getitem_col df "Waktu") as [[l|l]|e] eqn:Hw.
  - rewrite (view_filter_spec v _ _ Hw) in H. injection H as <-.
    destruct (mask_of_predicate (view_predicate v) df l Hw) as [Hw' Hm].
    rewrite (view_filter_spec v _ _ Hw'). now rewrite Hm.
  - destruct v as [now|now|start_date end_date]; simpl in *;
      try (unfold df_today, df_period in H; rewrite Hw in H; discriminate).
    unfold df_forecast in H. rewrite Hw in H. simpl in H.
    destruct (mapM _ l) as [mask|e] eqn:Hmask; simpl in H; [|discriminate].
    injection H as <-.
    unfold df_forecast. rewrite (getitem_col_mask _ mask _ _ Hw). simpl.
    rewrite (mapM_select _ _ _ Hmask). simpl.
    now rewrite getitem_mask_twice.
  - destruct v; simpl in H;
      unfold df_today, df_forecast, df_period in H; rewrite Hw in H;
      discriminate.
Qed.

(** On the Series of a payload with parallel arrays the filter of each view
    returns, and keeps exactly the Readings whose timestamp is of today's
    date (realtime), is later than the clock reading (forecast), or has its
    date between the two chosen dates, both included (period). *)
Lemma view_filter_keeps_exactly (v : View)
      (times : list (option Timestamp)) (co2 ch4 : list json) :
  exists times' co2' ch4',
    view_filter v (series times co2 ch4) = Returned (series times' co2' ch4') /\
    readings times' co2' ch4'
    = List.filter (fun r => view_predicate v (timestamp r))
                  (readings times co2 ch4).
Proof.
  assert (Hw : getitem_col (series times co2 ch4) "Waktu"
               = Returned (ColDatetime times)) by reflexivity.
  rewrite (view_filter_spec v _ _ Hw).
  eexists _, _, _. split; [reflexivity|]. apply readings_select.
Qed.

(** Every failed fetch ends the refresh of the realtime view, and the
    "Ambil Data" action of the period view, with AttributeError. *)
Lemma date_views_after_failed_fetch (net : Network) (selected : string)
      (c : Q * Q) (now : Timestamp) (start_date end_date : date) :
  wilayah selected = Returned c ->
  failed_fetch (net (air_quality_request (fst c) (snd c))) ->
  update_graph net selected now = Raised AttributeError /\
  ambil_data net selected start_date end_date = Raised AttributeError.
Proof.
  intros Hc Hf. unfold update_graph, ambil_data.
  rewrite Hc. simpl. rewrite (failed_fetch_empty _ _ _ Hf). split; reflexivity.
Qed.

(** The label of [show_kpi] carries the status that [kpi_status] computes
    from the two means. *)
Lemma show_kpi_status (df : DataFrame) (co2 ch4 : Column) (co2_avg ch4_avg : float) :
  empty df = false ->
  getitem_col df "CO2_ppm" = Returned co2 -> mean co2 = Returned co2_avg ->
  getitem_col df "CH4_ppb" = Returned ch4 -> mean ch4 = Returned ch4_avg ->
  show_kpi df
  = Returned (KpiLabel co2_avg ch4_avg (kpi_status co2_avg ch4_avg)
                       (status_colors (kpi_status co2_avg ch4_avg))).
Proof.
  intros He Hc Hmc Hm Hmm. unfold show_kpi.
  rewrite He, Hc. simpl. rewrite Hmc. simpl. rewrite Hm. simpl.
  rewrite Hmm. reflexivity.
Qed.

(** C7, where the code departs from it.  After a fetch that found no
    "hourly" key the realtime view and the period view raise
    AttributeError on [df["Waktu"].dt] instead of keeping the (zero)
    Readings of the empty Series; the forecast view, and [plot_graph] and
    [show_kpi] on an empty Series, reach the "no data" labels. *)
Theorem date_views_raise_after_failed_fetch (now : Timestamp)
        (start_date end_date : date) :
  get_air_quality_data (answers (JObj [])) (-(61862 # 10000)) (1068347 # 10000)
  = Returned empty_frame /\
  update_graph (answers (JObj [])) "Jakarta Pusat" now = Raised AttributeError /\
  ambil_data (answers (JObj [])) "Jakarta Pusat" start_date end_date
  = Raised AttributeError /\
  update_forecast (answers (JObj [])) "Jakarta Pusat" now
  = Returned (Label "Tidak ada data tersedia.", empty_frame) /\
  plot_graph empty_frame "CO₂ & CH₄ Hari Ini"
  = Returned (Label "Tidak ada data tersedia.") /\
  show_kpi empty_frame = Returned (Label "Tidak ada data KPI.").
Proof. repeat split. Qed.

Lemma header_line : csv_line ["Waktu"; "CO2_ppm"; "CH4_ppb"] = "Waktu,CO2_ppm,CH4_ppb".
Proof.
  unfold csv_line, csv_field, needs_quote, lineterminator.
  destruct linesep; reflexivity.
Qed.

Lemma append_assoc (a b c : string) : (a ++ b) ++ c = a ++ b ++ c.
Proof. induction a as [|x a IH]; simpl; [reflexivity|]. now rewrite IH. Qed.

Lemma append_empty (a : string) : a ++ "" = a.
Proof. induction a as [|x a IH]; simpl; [reflexivity|]. now rewrite IH. Qed.

Lemma concat_lines (x : string) (l : list string) :
  String.concat "" (x :: l) = x ++ String.concat "" l.
Proof. destruct l; simpl; [now rewrite append_empty|reflexivity]. Qed.

Lemma count_char_app (c : ascii) (a b : string) :
  count_char c (a ++ b) = (count_char c a + count_char c b)%nat.
Proof. induction a as [|x a IH]; simpl; [reflexivity|]. rewrite IH. lia. Qed.

(** Rows read by position are the columns zipped, when the columns have one
    length. *)
Lemma rows_zip (a b c : list string) :
  length a = length b -> length b = length c ->
  map (fun i => [nth i a ""; nth i b ""; nth i c ""]) (seq 0 (length a))
  = map (fun r => [fst (fst r); snd (fst r); snd r]) (combine (combine a b) c).
Proof.
  revert b c; induction a as [|x a IH]; intros [|y b] [|z c] Hab Hbc;
    try discriminate; simpl; [reflexivity|].
  f_equal. rewrite <- seq_shift, map_map. simpl in *.
  apply IH; lia.
Qed.

Lemma combine_map3 {A B C} (f : A -> string) (g : B -> string) (h : C -> string)
      (a : list A) (b : list B) (c : list C) :
  combine (combine (map f a) (map g b)) (map h c)
  = map (fun r => (f (fst (fst r)), g (snd (fst r)), h (snd r)))
        (combine (combine a b) c).
Proof.
  revert b c; induction a as [|x a IH]; intros [|y b] [|z c]; simpl;
    try reflexivity.
  now rewrite IH.
Qed.

(** The text [to_csv] writes for a Series of parallel columns is the text
    the interface describes. *)
Lemma to_csv_series (times : list (option Timestamp)) (co2 ch4 : list json) :
  length times = length co2 -> length co2 = length ch4 ->
  to_csv (series times co2 ch4) = expected_csv times co2 ch4.
Proof.
  intros Htc Hcm. unfold to_csv, to_csv_lines, expected_csv.
  change (column_names (series times co2 ch4)) with ["Waktu"; "CO2_ppm"; "CH4_ppb"].
  rewrite header_line. cbn [map]. rewrite concat_lines, append_assoc.
  unfold lineterminator. do 2 f_equal.
  unfold csv_rows. cbn [series nrows col_len map snd fst csv_cells].
  rewrite <- (length_map (fun x : option Timestamp =>
                            match x with
                            | Some t => csv_timestamp times t
                            | None => ""
                            end) times).
  rewrite rows_zip by (rewrite !length_map; assumption).
  rewrite combine_map3, !map_map. unfold readings.
  induction (combine (combine times co2) ch4) as [|r rs IH]; [reflexivity|].
  cbn [map fold_right]. rewrite concat_lines, IH, append_assoc.
  f_equal. destruct r as [[t c] m]. unfold reading_line.
  destruct c, m; reflexivity.
Qed.

Lemma line_breaks_app (a b : string) :
  line_breaks (a ++ b) = (line_breaks a + line_breaks b)%nat.
Proof. apply count_char_app. Qed.

Lemma line_breaks_newline : line_breaks (newline_string linesep) = 1%nat.
Proof. destruct linesep; reflexivity. Qed.

Lemma readings_length (times : list (option Timestamp)) (co2 ch4 : list json) :
  length times = length co2 -> length co2 = length ch4 ->
  length (readings times co2 ch4) = length times.
Proof.
  intros Htc Hcm. unfold readings.
  pose proof (length_combine (combine times co2) ch4) as H1.
  pose proof (length_combine times co2) as H2.
  unfold Reading, Timestamp in *. lia.
Qed.

(** One line feed for the header and one for each Reading, when no
    printed field holds one. *)
Lemma line_breaks_expected (times : list (option Timestamp)) (co2 ch4 : list json) :
  prints_one_line times co2 ch4 ->
  line_breaks (expected_csv times co2 ch4) = S (length (readings times co2 ch4)).
Proof.
  unfold prints_one_line, expected_csv. intros Hone.
  rewrite !line_breaks_app, line_breaks_newline.
  change (line_breaks "Waktu,CO2_ppm,CH4_ppb") with 0%nat.
  cbn [Nat.add]. f_equal.
  induction Hone as [|r rs Hr _ IH]; [reflexivity|].
  cbn [fold_right length].
  now rewrite !line_breaks_app, line_breaks_newline, Hr, IH.
Qed.

(** C8.  For a Series of parallel columns the save button writes the text
    the interface describes: the header line Waktu,CO2_ppm,CH4_ppb, then
    for each row a line of its time, its CO2 value and its CH4 value between
    commas, each line closed by the line terminator; when no printed field
    holds a line feed, the text has one line for the header and one for each
    row.  The period filter with both dates set to today returns a Series
    of one Reading of today's date as it is, and the text written for it
    has exactly two lines. *)
Theorem csv_export_text (times : list (option Timestamp)) (co2 ch4 : list json) :
  length times = length co2 -> length co2 = length ch4 ->
  prints_one_line times co2 ch4 ->
  save_csv (series times co2 ch4)
  = "Waktu,CO2_ppm,CH4_ppb" ++ newline_string linesep
    ++ fold_right (fun r rest =>
                     reading_line times co2 ch4 r ++ newline_string linesep ++ rest)
                  "" (readings times co2 ch4) /\
  line_breaks (save_csv (series times co2 ch4)) = S (length times) /\
  (forall t today,
      times = [Some t] -> date_of t = today ->
      df_period today today (series times co2 ch4)
      = Returned (series times co2 ch4) /\
      line_breaks (save_csv (series times co2 ch4)) = 2%nat).
Proof.
  intros Htc Hcm Hone.
  assert (Htext : save_csv (series times co2 ch4) = expected_csv times co2 ch4)
    by now apply to_csv_series.
  assert (Hlines : line_breaks (save_csv (series times co2 ch4)) = S (length times)).
  { rewrite Htext, line_breaks_expected by assumption.
    now rewrite readings_length. }
  split; [exact Htext|]. split; [exact Hlines|].
  intros t today -> Hdate. split.
  - destruct co2 as [|c [|]]; try discriminate.
    destruct ch4 as [|m [|]]; try discriminate.
    unfold df_period; simpl. unfold mask_and; simpl.
    rewrite Hdate, Z.leb_refl. reflexivity.
  - exact Hlines.
Qed.

End ViewsSpec.

(** ** The properties on concrete runs, with the reference instance *)

Section Runs.
#[local] Existing Instance iso_lib.



(** C2, as the spec states it, fails on a payload whose methane array is
    shorter than the other two: all three arrays are non-empty and the
    shorter gas array has one element, yet the fetcher returns no Series of
    one row (it returns the empty Series). *)
Lemma short_methane_counterexample :
  hourly_arrays short_methane
                [JStr "2024-05-01T13:00"; JStr "2024-05-01T14:00"]
                [JNum 420; JNum 460] [JNum 1900] /\
  get_air_quality_data (answers short_methane) 0 0 = Returned empty_frame /\
  ~ (exists df,
        get_air_quality_data (answers short_methane) 0 0 = Returned df /\
        nrows df = Nat.min (length [JNum 420; JNum 460]) (length [JNum 1900])).
Proof.
  split; [|split].
  - eexists _, _. repeat split.
  - reflexivity.
  - intros (df & Hget & Hrows).
    assert (He : get_air_quality_data (answers short_methane) 0 0
                 = Returned empty_frame) by reflexivity.
    rewrite He in Hget. injection Hget as <-. discriminate Hrows.
Qed.

Lemma fetch_parallel_arrays_witness :
  (exists times,
      get_air_quality_data (answers two_hours) 0 0
      = Returned (series times [JNum 420; JNum 460] [JNum 1900; JNum 1960]) /\
      nrows (series times [JNum 420; JNum 460] [JNum 1900; JNum 1960]) = 2%nat /\
      Forall2 (fun x t => parse_elem true x = Returned t)
              [JStr "2024-05-01T13:00"; JStr "2024-05-01T14:00"] times) /\
  get_air_quality_data (answers short_methane) 0 0 = Returned empty_frame.
Proof.
  split.
  - refine (proj1 (fetch_parallel_arrays (answers two_hours) 0 0 two_hours
                     [JStr "2024-05-01T13:00"; JStr "2024-05-01T14:00"]
                     [JNum 420; JNum 460] [JNum 1900; JNum 1960] eq_refl _)
                  eq_refl eq_refl _).
    + eexists _, _. repeat split.
    + intros x [<-|[<-|[]]]; eexists; reflexivity.
  - refine (proj2 (fetch_parallel_arrays (answers short_methane) 0 0 short_methane
                     [JStr "2024-05-01T13:00"; JStr "2024-05-01T14:00"]
                     [JNum 420; JNum 460] [JNum 1900] eq_refl _) _).
    + eexists _, _. repeat split.
    + right. discriminate.
Defined.

Lemma three_columns_everywhere_witness :
  exists df,
    get_air_quality_data (answers two_hours) 0 0 = Returned df /\
    column_names df = ["Waktu"; "CO2_ppm"; "CH4_ppb"] /\
    exists df',
      view_filter (Forecast may_1st_13h) df = Returned df' /\
      column_names df' = ["Waktu"; "CO2_ppm"; "CH4_ppb"].
Proof.
  destruct (three_columns_everywhere (answers two_hours) 0 0)
    as (df & Hget & Hcols & Hviews).
  exists df. split; [exact Hget|]. split; [exact Hcols|].
  assert (He : get_air_quality_data (answers two_hours) 0 0
               = Returned (series [Some may_1st_13h; Some (may_1st_13h + 3600000000000)]
                                  [JNum 420; JNum 460] [JNum 1900; JNum 1960]))
    by reflexivity.
  rewrite He in Hget. injection Hget as <-.
  eexists. split; [reflexivity|].
  apply (Hviews (Forecast may_1st_13h)). reflexivity.
Defined.

Lemma view_filter_idempotent_witness :
  view_filter (Realtime may_1st_13h)
              (series [Some (may_1st_13h - ns_per_day); Some may_1st_13h]
                      [JNum 420; JNum 460] [JNum 1900; JNum 1960])
  = Returned (series [Some may_1st_13h] [JNum 460] [JNum 1960]) /\
  view_filter (Realtime may_1st_13h)
              (series [Some may_1st_13h] [JNum 460] [JNum 1960])
  = Returned (series [Some may_1st_13h] [JNum 460] [JNum 1960]).
Proof.
  assert (H : view_filter (Realtime may_1st_13h)
                (series [Some (may_1st_13h - ns_per_day); Some may_1st_13h]
                        [JNum 420; JNum 460] [JNum 1900; JNum 1960])
              = Returned (series [Some may_1st_13h] [JNum 460] [JNum 1960]))
    by reflexivity.
  split; [exact H|].
  exact (view_filter_idempotent _ _ _ H).
Defined.

Lemma csv_export_text_witness :
  prints_one_line [Some may_1st_13h] [JNum 460] [JNum 1960] /\
  save_csv (series [Some may_1st_13h] [JNum 460] [JNum 1960])
  = "Waktu,CO2_ppm,CH4_ppb
2024-05-01 13:00:00,460,1960
" /\
  df_period 19844 19844 (series [Some may_1st_13h] [JNum 460] [JNum 1960])
  = Returned (series [Some may_1st_13h] [JNum 460] [JNum 1960]) /\
  line_breaks (save_csv (series [Some may_1st_13h] [JNum 460] [JNum 1960])) = 2%nat.
Proof.
  assert (Hone : prints_one_line [Some may_1st_13h] [JNum 460] [JNum 1960])
    by (repeat constructor).
  destruct (csv_export_text [Some may_1st_13h] [JNum 460] [JNum 1960]
              eq_refl eq_refl Hone) as (Htext & _ & Hexample).
  destruct (Hexample may_1st_13h 19844 eq_refl eq_refl) as [Hperiod Htwo].
  split; [exact Hone|]. split; [exact Htext|].
  split; [exact Hperiod|exact Htwo].
Defined.

(** The file the save button writes for that one-row Series. *)
Example save_csv_one_row :
  save_csv (series [Some may_1st_13h] [JNum 460] [JNum 1960])
  = "Waktu,CO2_ppm,CH4_ppb
2024-05-01 13:00:00,460,1960
".
Proof. reflexivity. Qed.

(** A day of the realtime view: the fetch, the filter, the chart, the
    status and the frame behind the save button. *)
Example update_graph_two_hours :
  update_graph (answers two_hours) "Jakarta Pusat" may_1st_13h
  = Returned
      (Chart "CO₂ & CH₄ Hari Ini"
             (ColDatetime [Some may_1st_13h; Some (may_1st_13h + 3600000000000)])
             (ColObject [JNum 420; JNum 460])
             (ColObject [JNum 1900; JNum 1960]),
       KpiLabel (Fin 440) (Fin 1930) Normal "#43A047",
       series [Some may_1st_13h; Some (may_1st_13h + 3600000000000)]
              [JNum 420; JNum 460] [JNum 1900; JNum 1960]).
Proof. reflexivity. Qed.

End Runs.

(** ** Further properties of the fetcher, the filters and the classifier *)

Section MoreMasks.
Context {A B : Type}.

Lemma select_none (p : A -> bool) (l : list A) (c : list B) :
  (forall x, p x = false) -> select (map p l) c = [].
Proof.
  intros Hp. revert c; induction l as [|x l IH]; intros c; simpl.
  - reflexivity.
  - destruct c as [|y c]; [reflexivity|]. rewrite Hp. apply IH.
Qed.

Lemma select_shorter (mask : list bool) (c : list B) :
  (length (select mask c) <= length c)%nat.
Proof.
  revert c; induction mask as [|b mask IH]; intros c; simpl; [lia|].
  destruct c as [|y c]; simpl; [lia|].
  destruct b; simpl; specialize (IH c); lia.
Qed.

(** Two predicate masks in a row select what the conjunction selects. *)
Lemma select_select (p q : A -> bool) (l : list A) (c : list B) :
  select (map q (List.filter p l)) (select (map p l) c)
  = select (map (fun x => p x && q x) l) c.
Proof.
  revert c; induction l as [|x l IH]; intros c; simpl.
  - reflexivity.
  - destruct c as [|y c]; simpl.
    + destruct (p x); simpl; [|apply select_nil].
      now destruct (q x).
    + destruct (p x); simpl; [|apply IH].
      destruct (q x); now rewrite IH.
Qed.

End MoreMasks.

Section MoreFrames.
Context {lib : PandasLib}.

Lemma getitem_mask_and (p q : option Timestamp -> bool) (df : DataFrame)
      (l : list (option Timestamp)) :
  getitem_mask (getitem_mask df (map p l)) (map q (List.filter p l))
  = getitem_mask df (map (fun x => p x && q x) l).
Proof.
  unfold getitem_mask. rewrite map_map. apply map_ext.
  intros [k c]; simpl. f_equal.
  destruct c; simpl; f_equal; apply select_select.
Qed.

Lemma nrows_getitem_mask (df : DataFrame) (mask : list bool) :
  (nrows (getitem_mask df mask) <= nrows df)%nat.
Proof.
  destruct df as [|[k c] df]; simpl; [lia|].
  destruct c; simpl; apply select_shorter.
Qed.

(** Every result of a view filter is a boolean selection of the frame it
    was given. *)
Lemma view_filter_mask (v : View) (df df' : DataFrame) :
  view_filter v df = Returned df' -> exists mask, df' = getitem_mask df mask.
Proof.
  intros H.
  destruct v; simpl in H; unfold df_today, df_forecast, df_period in H;
    destruct (getitem_col df "Waktu") as [c|]; simpl in H; try discriminate.
  - destruct (dt_date c); simpl in H; [|discriminate].
    injection H as <-. eauto.
  - destruct (gt_datetime c now); simpl in H; [|discriminate].
    injection H as <-. eauto.
  - destruct (dt_date c); simpl in H; [|discriminate].
    injection H as <-. eauto.
Qed.

Lemma StronglySorted_filter {T} (R : T -> T -> Prop) (p : T -> bool) (l : list T) :
  Sorted.StronglySorted R l -> Sorted.StronglySorted R (List.filter p l).
Proof.
  induction 1 as [|x l Hs IH Hx]; simpl; [constructor|].
  destruct (p x); [|exact IH].
  constructor; [exact IH|].
  apply Forall_forall. intros y Hy. apply filter_In in Hy.
  rewrite Forall_forall in Hx. now apply Hx.
Qed.

Lemma view_predicate_NaT (v : View) : view_predicate v None = false.
Proof. now destruct v. Qed.

(** The fetches that are not failed: a JSON object with an "hourly" object
    that has the three keys. *)
Lemma failed_or_keyed (out : Result Response) :
  failed_fetch out \/
  exists kv h time co2 ch4,
    out = Returned {| body := Some (JObj kv) |} /\
    dict_get "hourly" kv = Some (JObj h) /\
    dict_get "time" h = Some time /\
    dict_get "carbon_dioxide" h = Some co2 /\
    dict_get "methane" h = Some ch4.
Proof.
  destruct out as [[[data|]]|e]; [| left; constructor | left; constructor].
  destruct data as [|b|q|s|l|kv];
    try (left; apply payload_not_object; discriminate).
  destruct (dict_get "hourly" kv) as [h|] eqn:Hh;
    [|left; now apply missing_hourly].
  destruct h as [|b|q|s|l|h];
    try (left; eapply hourly_not_object; [exact Hh|discriminate]).
  destruct (dict_get "time" h) as [t|] eqn:Ht;
    [|left; eapply (missing_array kv h "time"); simpl; auto].
  destruct (dict_get "carbon_dioxide" h) as [c|] eqn:Hc;
    [|left; eapply (missing_array kv h "carbon_dioxide"); simpl; auto].
  destruct (dict_get "methane" h) as [m|] eqn:Hm;
    [|left; eapply (missing_array kv h "methane"); simpl; auto].
  right. now exists kv, h, t, c, m.
Qed.

(** The Series of a payload with parallel arrays that parse. *)
Lemma fetch_series (net : Network) (lat lon : Q) (data : json)
      (time co2 ch4 : list json) (times : list (option Timestamp)) :
  net (air_quality_request lat lon) = Returned {| body := Some data |} ->
  hourly_arrays data time co2 ch4 ->
  length time = length co2 -> length co2 = length ch4 ->
  Forall2 (fun x t => parse_datetime (guess_datetime_format time) x = Returned t)
          time times ->
  get_air_quality_data net lat lon = Returned (series times co2 ch4).
Proof.
  intros Hnet Harr Htc Hcm HF.
  rewrite (fetch_arrays _ _ _ _ _ _ _ Hnet Harr).
  pose proof (Forall2_length HF) as Hlen.
  apply mapM_Forall2 in HF. rewrite HF. simpl.
  replace (Nat.eqb (length co2) (length times)) with true
    by (symmetry; apply Nat.eqb_eq; congruence).
  replace (Nat.eqb (length ch4) (length times)) with true
    by (symmetry; apply Nat.eqb_eq; congruence).
  reflexivity.
Qed.

End MoreFrames.

Section MoreFetcherSpec.
Context {lib : PandasLib}.

(** X1.  Whenever the fetcher returns anything but the empty Series, the
    response was a JSON object with an "hourly" object holding "time",
    "carbon_dioxide" and "methane"; and when these three are arrays, they
    have one length, every time parsed, and the Series returned holds
    exactly the parsed times and the two gas arrays as they were sent.
    (Of a value that is not an array, which pandas may repeat along the
    others, the statement says nothing.) *)
Theorem fetched_data_has_all_keys (net : Network) (lat lon : Q) (df : DataFrame) :
  get_air_quality_data net lat lon = Returned df ->
  df <> empty_frame ->
  exists kv h time co2 ch4,
    net (air_quality_request lat lon) = Returned {| body := Some (JObj kv) |} /\
    dict_get "hourly" kv = Some (JObj h) /\
    dict_get "time" h = Some time /\
    dict_get "carbon_dioxide" h = Some co2 /\
    dict_get "methane" h = Some ch4 /\
    (forall t c m,
        time = JArr t -> co2 = JArr c -> ch4 = JArr m ->
        length t = length c /\ length c = length m /\
        exists times,
          Forall2 (fun x ts =>
                     parse_datetime (guess_datetime_format t) x = Returned ts)
                  t times /\
          df = series times c m).
Proof.
  intros Hget Hne.
  destruct (failed_or_keyed (net (air_quality_request lat lon)))
    as [Hf|(kv & h & time & co2 & ch4 & Hnet & Hh & Ht & Hc & Hm)].
  - rewrite (failed_fetch_empty _ _ _ Hf) in Hget. congruence.
  - exists kv, h, time, co2, ch4. repeat (split; [assumption|]).
    intros t c m -> -> ->.
    assert (Harr : hourly_arrays (JObj kv) t c m) by now exists kv, h.
    rewrite (fetch_arrays _ _ _ _ _ _ _ Hnet Harr) in Hget.
    destruct (mapM _ t) as [times|e] eqn:Hts; simpl in Hget;
      [|injection Hget as <-; congruence].
    apply mapM_Forall2 in Hts. pose proof (Forall2_length Hts) as Hlen.
    destruct (Nat.eqb_spec (length c) (length times)) as [H1|H1];
      destruct (Nat.eqb_spec (length m) (length times)) as [H2|H2];
      simpl in Hget; injection Hget as <-; try congruence.
    split; [congruence|]. split; [congruence|]. now exists times.
Qed.

(** X11.  End to end, the "Ambil Data" action on a payload with parallel
    arrays that parse returns the Series of exactly the Readings whose date
    lies between the two chosen dates, both included, in their order. *)
Theorem ambil_data_parallel_arrays (net : Network) (selected : string)
        (c : Q * Q) (start_date end_date : date) (data : json)
        (time co2 ch4 : list json) (times : list (option Timestamp)) :
  wilayah selected = Returned c ->
  net (air_quality_request (fst c) (snd c)) = Returned {| body := Some data |} ->
  hourly_arrays data time co2 ch4 ->
  length time = length co2 -> length co2 = length ch4 ->
  Forall2 (fun x t => parse_datetime (guess_datetime_format time) x = Returned t)
          time times ->
  exists times' co2' ch4',
    ambil_data net selected start_date end_date
    = Returned (series times' co2' ch4') /\
    readings times' co2' ch4'
    = List.filter (fun r => in_period start_date end_date (timestamp r))
                  (readings times co2 ch4).
Proof.
  intros Hc Hnet Harr Htc Hcm HF. unfold ambil_data. rewrite Hc. simpl.
  rewrite (fetch_series _ _ _ _ _ _ _ _ Hnet Harr Htc Hcm HF). simpl.
  exact (view_filter_keeps_exactly (Period start_date end_date) times co2 ch4).
Qed.

End MoreFetcherSpec.

Section MoreViewsSpec.
Context {lib : PandasLib}.

(** X2.  The period filter with both dates set to the date of the clock
    reading is the realtime filter, on every frame (they return the same
    Series or raise the same exception). *)
Theorem period_of_one_day_is_realtime (now : Timestamp) (df : DataFrame) :
  df_period (date_of now) (date_of now) df = df_today now df.
Proof.
  unfold df_period, df_today.
  destruct (getitem_col df "Waktu") as [[l|l]|e]; simpl; try reflexivity.
  rewrite period_mask, today_mask. do 2 f_equal.
  apply map_ext. intros [t|]; simpl; [|reflexivity].
  destruct (Z.eqb_spec (date_of t) (date_of now)) as [->|Hne].
  - now rewrite Z.leb_refl.
  - destruct (Z.leb_spec (date_of now) (date_of t));
      destruct (Z.leb_spec (date_of t) (date_of now)); simpl; try reflexivity.
    lia.
Qed.

(** X3.  With the start date after the end date the period filter keeps no
    row: the Series it returns is empty and has the columns it was given. *)
Theorem period_with_reversed_dates_is_empty (start_date end_date : date)
        (df df' : DataFrame) :
  end_date < start_date ->
  df_period start_date end_date df = Returned df' ->
  nrows df' = 0%nat /\ empty df' = true /\ column_names df' = column_names df.
Proof.
  intros Hlt H. unfold df_period in H.
  destruct (getitem_col df "Waktu") as [[l|l]|e]; simpl in H; try discriminate.
  rewrite period_mask in H. injection H as <-.
  assert (Hp : forall x, in_period start_date end_date x = false).
  { intros [t|]; simpl; [|reflexivity].
    destruct (Z.leb_spec start_date (date_of t));
      destruct (Z.leb_spec (date_of t) end_date); simpl; try reflexivity.
    lia. }
  assert (Hrows : nrows (getitem_mask df (map (in_period start_date end_date) l))
                  = 0%nat).
  { destruct df as [|[k c] df]; simpl; [reflexivity|].
    destruct c; simpl; now rewrite select_none. }
  repeat split.
  - exact Hrows.
  - unfold empty. rewrite Hrows. now destruct (getitem_mask _ _).
  - unfold column_names, getitem_mask. now rewrite map_map.
Qed.

(** X4.  On a Series with a datetime Waktu column any two view filters can
    be applied in either order: both orders return, and return the same
    Series. *)
Theorem view_filters_commute (v1 v2 : View) (df : DataFrame)
        (l : list (option Timestamp)) :
  getitem_col df "Waktu" = Returned (ColDatetime l) ->
  exists d1 d2 d,
    view_filter v1 df = Returned d1 /\ view_filter v2 d1 = Returned d /\
    view_filter v2 df = Returned d2 /\ view_filter v1 d2 = Returned d.
Proof.
  intros Hw.
  destruct (mask_of_predicate (view_predicate v1) df l Hw) as [Hw1 _].
  destruct (mask_of_predicate (view_predicate v2) df l Hw) as [Hw2 _].
  eexists _, _, _. split; [apply (view_filter_spec v1 _ _ Hw)|].
  split; [apply (view_filter_spec v2 _ _ Hw1)|].
  split; [apply (view_filter_spec v2 _ _ Hw)|].
  rewrite (view_filter_spec v1 _ _ Hw2). f_equal.
  rewrite !getitem_mask_and. f_equal.
  apply map_ext. intros x. apply andb_comm.
Qed.

(** X5.  A view filter does not reorder: the Waktu column it returns is the
    column it was given with the rejected timestamps left out, so timestamps
    that were sorted (for any order relation) stay sorted. *)
Theorem view_filter_keeps_order (v : View) (df : DataFrame)
        (l : list (option Timestamp)) (R : option Timestamp -> option Timestamp -> Prop) :
  getitem_col df "Waktu" = Returned (ColDatetime l) ->
  StronglySorted R l ->
  exists df' kept,
    view_filter v df = Returned df' /\
    getitem_col df' "Waktu" = Returned (ColDatetime kept) /\
    kept = List.filter (view_predicate v) l /\
    StronglySorted R kept.
Proof.
  intros Hw Hs.
  destruct (mask_of_predicate (view_predicate v) df l Hw) as [Hw' _].
  eexists _, _. split; [apply (view_filter_spec v _ _ Hw)|].
  split; [exact Hw'|]. split; [reflexivity|].
  now apply StronglySorted_filter.
Qed.

(** X6.  No view keeps a Reading whose timestamp is missing: every
    timestamp of the Series a view filter returns is a real timestamp that
    satisfies the predicate of the view. *)
Theorem view_filter_drops_NaT (v : View) (df : DataFrame)
        (l : list (option Timestamp)) :
  getitem_col df "Waktu" = Returned (ColDatetime l) ->
  exists df' kept,
    view_filter v df = Returned df' /\
    getitem_col df' "Waktu" = Returned (ColDatetime kept) /\
    Forall (fun x => exists t, x = Some t /\ view_predicate v (Some t) = true)
           kept.
Proof.
  intros Hw.
  destruct (mask_of_predicate (view_predicate v) df l Hw) as [Hw' _].
  eexists _, _. split; [apply (view_filter_spec v _ _ Hw)|].
  split; [exact Hw'|].
  apply Forall_forall. intros x Hx. apply filter_In in Hx.
  destruct Hx as [_ Hp]. destruct x as [t|].
  - now exists t.
  - now rewrite view_predicate_NaT in Hp.
Qed.

(** X7.  A view filter never adds a row: whenever it returns, the Series
    it returns has at most as many rows as the one it was given. *)
Theorem view_filter_never_adds_rows (v : View) (df df' : DataFrame) :
  view_filter v df = Returned df' -> (nrows df' <= nrows df)%nat.
Proof.
  intros H. destruct (view_filter_mask _ _ _ H) as [mask ->].
  apply nrows_getitem_mask.
Qed.

Lemma select_same_length {A B} (mask : list bool) (a : list A) (b : list B) :
  length a = length b -> length (select mask a) = length (select mask b).
Proof.
  revert a b; induction mask as [|k mask IH]; intros [|x a] [|y b] H;
    try discriminate; try reflexivity.
  simpl in *. destruct k; simpl; rewrite (IH a b); congruence.
Qed.

(** X8.  Filter, then export: for a Series of parallel columns, the text
    written for what a view shows is the header line followed by the line
    of each Reading whose timestamp passes the filter of the view, in their
    order, and by nothing else; when no printed field holds a line feed it
    has one line for the header and one for each such Reading. *)
Theorem export_after_filter (v : View) (times : list (option Timestamp))
        (co2 ch4 : list json) :
  length times = length co2 -> length co2 = length ch4 ->
  exists times' co2' ch4',
    view_filter v (series times co2 ch4) = Returned (series times' co2' ch4') /\
    readings times' co2' ch4'
    = List.filter (fun r => view_predicate v (timestamp r))
                  (readings times co2 ch4) /\
    save_csv (series times' co2' ch4')
    = "Waktu,CO2_ppm,CH4_ppb" ++ newline_string linesep
      ++ fold_right (fun r rest =>
                       reading_line times' co2' ch4' r
                       ++ newline_string linesep ++ rest)
                    "" (readings times' co2' ch4') /\
    (prints_one_line times' co2' ch4' ->
     line_breaks (save_csv (series times' co2' ch4'))
     = S (length (List.filter (view_predicate v) times))).
Proof.
  intros Htc Hcm.
  assert (Hw : getitem_col (series times co2 ch4) "Waktu"
               = Returned (ColDatetime times)) by reflexivity.
  exists (select (map (view_predicate v) times) times),
         (select (map (view_predicate v) times) co2),
         (select (map (view_predicate v) times) ch4).
  assert (H1 : length (select (map (view_predicate v) times) times)
               = length (select (map (view_predicate v) times) co2))
    by now apply select_same_length.
  assert (H2 : length (select (map (view_predicate v) times) co2)
               = length (select (map (view_predicate v) times) ch4))
    by now apply select_same_length.
  split; [apply (view_filter_spec v _ _ Hw)|].
  split; [apply readings_select|].
  split; [now apply to_csv_series|].
  intros Hone. unfold save_csv.
  rewrite (to_csv_series _ _ _ H1 H2), (line_breaks_expected _ _ _ Hone).
  rewrite (readings_length _ _ _ H1 H2). now rewrite select_map_filter.
Qed.

End MoreViewsSpec.

Section MoreClassifierSpec.
Context {lib : PandasLib}.

Lemma bucket_Normal (lo hi : Z) (x : float) :
  bucket lo hi x = Normal <-> ltb x (of_int lo) = true.
Proof.
  unfold bucket. destruct (ltb x (of_int lo)); [tauto|].
  destruct (_ && _); split; discriminate.
Qed.

Lemma bucket_Tinggi (lo hi : Z) (x : float) :
  (lo <= hi)%Z ->
  bucket lo hi x = Tinggi <-> leb x (of_int hi) = false.
Proof.
  intros Hlh.
  assert (HQ : (inject_Z lo <= inject_Z hi)%Q) by now rewrite <- Zle_Qle.
  unfold bucket, of_int.
  destruct x as [q| | |]; simpl;
    try (split; intros; (reflexivity || discriminate)).
  destruct (Qltb q (inject_Z lo)) eqn:Hlt.
  - apply Qltb_lt in Hlt. split; [discriminate|].
    intros Hgt. apply Qleb_gt in Hgt. exfalso.
    apply (Qlt_irrefl q). eapply Qlt_le_trans; [exact Hlt|].
    eapply Qle_trans; [exact HQ|]. now apply Qlt_le_weak.
  - apply Qltb_ge in Hlt. apply Qleb_le in Hlt. rewrite Hlt. simpl.
    destruct (Qleb q (inject_Z hi)); split; intros;
      (reflexivity || discriminate).
Qed.

(** X9.  The combined status is Normal exactly when both averages are below
    their lower thresholds (450 ppm, 1950 ppb), and Tinggi exactly when one
    of them is not at most its upper threshold (500 ppm, 2000 ppb), which
    includes an average that is NaN. *)
Theorem kpi_status_extremes (co2_avg ch4_avg : float) :
  (kpi_status co2_avg ch4_avg = Normal <->
   ltb co2_avg (of_int 450) = true /\ ltb ch4_avg (of_int 1950) = true) /\
  (kpi_status co2_avg ch4_avg = Tinggi <->
   leb co2_avg (of_int 500) = false \/ leb ch4_avg (of_int 2000) = false).
Proof.
  unfold kpi_status. split.
  - transitivity (status_co2 co2_avg = Normal /\ status_ch4 ch4_avg = Normal).
    + destruct (status_co2 co2_avg), (status_ch4 ch4_avg); simpl;
        intuition discriminate.
    + rewrite status_co2_bucket, status_ch4_bucket.
      now rewrite !bucket_Normal.
  - transitivity (status_co2 co2_avg = Tinggi \/ status_ch4 ch4_avg = Tinggi).
    + destruct (status_co2 co2_avg), (status_ch4 ch4_avg); simpl;
        intuition discriminate.
    + rewrite status_co2_bucket, status_ch4_bucket.
      rewrite (bucket_Tinggi 450 500 co2_avg ltac:(lia)).
      now rewrite (bucket_Tinggi 1950 2000 ch4_avg ltac:(lia)).
Qed.

(** X10.  A frame with data whose CO2 mean is NaN (every value missing) is
    shown as Tinggi, in red, whatever the CH4 mean is. *)
Theorem show_kpi_nan_is_tinggi (df : DataFrame) (co2 ch4 : Column) (ch4_avg : float) :
  empty df = false ->
  getitem_col df "CO2_ppm" = Returned co2 -> mean co2 = Returned NaN ->
  getitem_col df "CH4_ppb" = Returned ch4 -> mean ch4 = Returned ch4_avg ->
  show_kpi df = Returned (KpiLabel NaN ch4_avg Tinggi "#E53935").
Proof.
  intros He Hc Hmc Hm Hmm.
  rewrite (show_kpi_status df co2 ch4 NaN ch4_avg He Hc Hmc Hm Hmm).
  assert (Hk : kpi_status NaN ch4_avg = Tinggi).
  { unfold kpi_status. change (status_co2 NaN) with Tinggi.
    now destruct (status_ch4 ch4_avg). }
  now rewrite Hk.
Qed.

End MoreClassifierSpec.

(** ** The window: save button, refresh callbacks, timers, table *)

Section GuiSpec.
Context {lib : PandasLib}.

Lemma filter_save_of_others (l : list Gui.Child) :
  List.filter Gui.is_save_button
              (List.filter (fun c => negb (Gui.is_save_button c)) l) = [].
Proof.
  induction l as [|c l IH]; simpl; [reflexivity|].
  destruct (Gui.is_save_button c) eqn:Hc; simpl; [exact IH|].
  now rewrite Hc.
Qed.

Lemma filter_others_twice (l : list Gui.Child) :
  List.filter (fun c => negb (Gui.is_save_button c))
              (List.filter (fun c => negb (Gui.is_save_button c)) l)
  = List.filter (fun c => negb (Gui.is_save_button c)) l.
Proof.
  induction l as [|c l IH]; simpl; [reflexivity|].
  destruct (Gui.is_save_button c) eqn:Hc; simpl; [exact IH|].
  rewrite Hc. simpl. now rewrite IH.
Qed.

Lemma add_save_button_run (df : DataFrame) (label : string) (s : Gui.Tk) :
  Gui.add_save_button df label s = (Returned tt, Gui.with_save_button df label s).
Proof. reflexivity. Qed.

(** X13.  However many save buttons the content frame holds, after
    [add_save_button] it holds exactly one, packed last and bound to the
    frame just passed; the other children keep their places, and nothing
    else in the window changes. *)
Theorem add_save_button_leaves_one (df : DataFrame) (label : string) (s : Gui.Tk) :
  exists s',
    Gui.add_save_button df label s = (Returned tt, s') /\
    List.filter Gui.is_save_button (Gui.content_frame s')
    = [Gui.SaveButton label df] /\
    last (Gui.content_frame s') Gui.GraphFrame = Gui.SaveButton label df /\
    List.filter (fun c => negb (Gui.is_save_button c)) (Gui.content_frame s')
    = List.filter (fun c => negb (Gui.is_save_button c)) (Gui.content_frame s) /\
    Gui.graph_frame s' = Gui.graph_frame s /\
    Gui.kpi_frame s' = Gui.kpi_frame s /\
    Gui.tree s' = Gui.tree s /\
    Gui.timers s' = Gui.timers s.
Proof.
  exists (Gui.with_save_button df label s).
  split; [apply add_save_button_run|]. simpl.
  rewrite !filter_app, filter_save_of_others, filter_others_twice. simpl.
  rewrite last_last, app_nil_r. repeat split.
Qed.

(** The refresh of the realtime view in terms of its parts. *)
Lemma update_graph_run (net : Network) (now : Timestamp) (s : Gui.Tk) :
  Gui.update_graph net now s
  = match wilayah (Gui.wilayah_var s) with
    | Raised e => (Raised e, s)
    | Returned c =>
        match get_air_quality_data net (fst c) (snd c) with
        | Raised e => (Raised e, s)
        | Returned df =>
            match df_today now df with
            | Raised e => (Raised e, s)
            | Returned shown =>
                match plot_graph shown "CO₂ & CH₄ Hari Ini" with
                | Raised e => (Raised e, Gui.set_graph [] s)
                | Returned g =>
                    match show_kpi shown with
                    | Raised e => (Raised e, Gui.set_kpi [] (Gui.set_graph [g] s))
                    | Returned k =>
                        (Returned tt,
                         Gui.set_timers
                           (Gui.timers s ++ [(Gui.refresh_interval, Gui.RealtimeView)])
                           (Gui.with_save_button shown "Simpan CSV Realtime"
                              (Gui.set_kpi [k] (Gui.set_graph [g] s))))
                    end
                end
            end
        end
    end.
Proof.
  unfold Gui.update_graph, Gui.ubind, Gui.gets, Gui.lift. simpl.
  destruct (wilayah (Gui.wilayah_var s)) as [c|e]; [|reflexivity].
  destruct (get_air_quality_data net (fst c) (snd c)) as [df|e]; [|reflexivity].
  destruct (df_today now df) as [shown|e]; [|reflexivity].
  unfold Gui.plot_graph, Gui.show_kpi, Gui.ubind, Gui.lift, Gui.modify. simpl.
  destruct (plot_graph shown _) as [g|e]; [|reflexivity].
  destruct (show_kpi shown) as [k|e]; reflexivity.
Qed.

Lemma update_forecast_run (net : Network) (now : Timestamp) (s : Gui.Tk) :
  Gui.update_forecast net now s
  = match wilayah (Gui.wilayah_var s) with
    | Raised e => (Raised e, s)
    | Returned c =>
        match get_air_quality_data net (fst c) (snd c) with
        | Raised e => (Raised e, s)
        | Returned df =>
            match df_forecast now df with
            | Raised e => (Raised e, s)
            | Returned shown =>
                match plot_graph shown "Forecast CO₂ & CH₄" with
                | Raised e => (Raised e, Gui.set_graph [] s)
                | Returned g =>
                    (Returned tt,
                     Gui.set_timers
                       (Gui.timers s ++ [(Gui.refresh_interval, Gui.ForecastView)])
                       (Gui.with_save_button shown "Simpan CSV Forecast"
                          (Gui.set_graph [g] s)))
                end
            end
        end
    end.
Proof.
  unfold Gui.update_forecast, Gui.ubind, Gui.gets, Gui.lift. simpl.
  destruct (wilayah (Gui.wilayah_var s)) as [c|e]; [|reflexivity].
  destruct (get_air_quality_data net (fst c) (snd c)) as [df|e]; [|reflexivity].
  destruct (df_forecast now df) as [shown|e]; [|reflexivity].
  unfold Gui.plot_graph, Gui.ubind, Gui.lift, Gui.modify. simpl.
  destruct (plot_graph shown _) as [g|e]; reflexivity.
Qed.

(** A refresh callback either returns, having scheduled exactly one timer
    after those pending, or raises, having touched neither the timers nor
    the children of the content frame. *)
Lemma callback_outcome (v : Gui.RefreshView) (net : Network) (now : Timestamp)
      (s : Gui.Tk) :
  (exists s', Gui.callback v net now s = (Returned tt, s') /\
              Gui.timers s' = (Gui.timers s ++ [(Gui.refresh_interval, v)])%list /\
              Gui.wilayah_var s' = Gui.wilayah_var s) \/
  (exists e s', Gui.callback v net now s = (Raised e, s') /\
                Gui.timers s' = Gui.timers s /\
                Gui.content_frame s' = Gui.content_frame s /\
                Gui.wilayah_var s' = Gui.wilayah_var s).
Proof.
  destruct v; simpl.
  - rewrite update_graph_run.
    destruct (wilayah _) as [c|e]; [|right; now eexists _, _].
    destruct (get_air_quality_data _ _ _) as [df|e]; [|right; now eexists _, _].
    destruct (df_today now df) as [shown|e]; [|right; now eexists _, _].
    destruct (plot_graph shown _) as [g|e]; [|right; now eexists _, _].
    destruct (show_kpi shown) as [k|e]; [|right; now eexists _, _].
    left. now eexists.
  - rewrite update_forecast_run.
    destruct (wilayah _) as [c|e]; [|right; now eexists _, _].
    destruct (get_air_quality_data _ _ _) as [df|e]; [|right; now eexists _, _].
    destruct (df_forecast now df) as [shown|e]; [|right; now eexists _, _].
    destruct (plot_graph shown _) as [g|e]; [|right; now eexists _, _].
    left. now eexists.
Qed.

(** X14.  When a refresh of the realtime view goes through, the chart, the
    KPI label and the save button are all made from one and the same
    filtered Series, and the next refresh is scheduled in 600000 ms. *)
Theorem refresh_shows_and_exports_one_series (net : Network) (now : Timestamp)
        (s : Gui.Tk) (g k : Widget) (shown : DataFrame) :
  update_graph net (Gui.wilayah_var s) now = Returned (g, k, shown) ->
  exists s',
    Gui.update_graph net now s = (Returned tt, s') /\
    plot_graph shown "CO₂ & CH₄ Hari Ini" = Returned g /\
    show_kpi shown = Returned k /\
    Gui.graph_frame s' = [g] /\ Gui.kpi_frame s' = [k] /\
    List.filter Gui.is_save_button (Gui.content_frame s')
    = [Gui.SaveButton "Simpan CSV Realtime" shown] /\
    Gui.timers s' = (Gui.timers s ++ [(600000, Gui.RealtimeView)])%list.
Proof.
  intros H. unfold update_graph in H. rewrite update_graph_run.
  destruct (wilayah _) as [c|]; simpl in H; [|discriminate].
  destruct (get_air_quality_data _ _ _) as [df|]; simpl in H; [|discriminate].
  destruct (df_today now df) as [shown'|]; simpl in H; [|discriminate].
  destruct (plot_graph shown' _) as [g'|] eqn:Hg; simpl in H; [|discriminate].
  destruct (show_kpi shown') as [k'|] eqn:Hk; simpl in H; [|discriminate].
  injection H as -> -> ->.
  eexists. split; [reflexivity|]. simpl.
  rewrite filter_app, filter_save_of_others. repeat split; assumption.
Qed.

(** X15.  A failed fetch ends the self-refresh of the realtime view: when
    its only pending timer fires, the callback raises AttributeError, the
    timer is gone and none is scheduled, and the chart, the KPI label and
    the save button stay as they were. *)
Theorem realtime_refresh_stops_after_failed_fetch (net : Network) (now : Timestamp)
        (st : Gui.Loop) (ms : Z) (c : Q * Q) :
  Gui.timers (Gui.window st) = [(ms, Gui.RealtimeView)] ->
  wilayah (Gui.wilayah_var (Gui.window st)) = Returned c ->
  failed_fetch (net (air_quality_request (fst c) (snd c))) ->
  Gui.handle Gui.RealtimeView (net, now, Gui.Fire 0) st
  = Some {| Gui.window := Gui.set_timers [] (Gui.window st);
            Gui.reported := AttributeError :: Gui.reported st |}.
Proof.
  intros Ht Hc Hf. unfold Gui.handle. rewrite Ht. simpl.
  unfold Gui.run_callback, Gui.ubind, Gui.modify. rewrite update_graph_run.
  simpl. rewrite Hc, (failed_fetch_empty _ _ _ Hf). simpl.
  now rewrite Ht.
Qed.

(** X16.  The forecast view survives a failed fetch: when a pending timer
    fires, the chart frame shows the "no data" label, the save button is
    bound to the empty Series and the next refresh is scheduled. *)
Theorem forecast_refresh_goes_on_after_failed_fetch (net : Network) (now : Timestamp)
        (st : Gui.Loop) (ms : Z) (c : Q * Q) :
  Gui.timers (Gui.window st) = [(ms, Gui.ForecastView)] ->
  wilayah (Gui.wilayah_var (Gui.window st)) = Returned c ->
  failed_fetch (net (air_quality_request (fst c) (snd c))) ->
  exists w,
    Gui.handle Gui.ForecastView (net, now, Gui.Fire 0) st
    = Some {| Gui.window := w; Gui.reported := Gui.reported st |} /\
    Gui.graph_frame w = [Label "Tidak ada data tersedia."] /\
    List.filter Gui.is_save_button (Gui.content_frame w)
    = [Gui.SaveButton "Simpan CSV Forecast" empty_frame] /\
    Gui.timers w = [(600000, Gui.ForecastView)].
Proof.
  intros Ht Hc Hf. unfold Gui.handle. rewrite Ht. simpl.
  unfold Gui.run_callback, Gui.ubind, Gui.modify. rewrite update_forecast_run.
  simpl. rewrite Hc, (failed_fetch_empty _ _ _ Hf). simpl.
  eexists. split; [reflexivity|]. simpl.
  rewrite filter_app, filter_save_of_others. now rewrite Ht.
Qed.

Lemma length_remove_nth {A} (i : nat) (l : list A) (x : A) :
  nth_error l i = Some x -> S (length (Gui.remove_nth i l)) = length l.
Proof.
  revert i; induction l as [|y l IH]; intros [|i]; simpl; try discriminate.
  - reflexivity.
  - intros H. now rewrite (IH _ H).
Qed.

Lemma handle_accounting (v : Gui.RefreshView)
      (world : Network * Timestamp * Gui.Event) (st st' : Gui.Loop) :
  Gui.handle v world st = Some st' ->
  (length (Gui.timers (Gui.window st')) + length (Gui.reported st')
   = length (Gui.timers (Gui.window st)) + length (Gui.reported st)
     + Gui.selections [world])%nat.
Proof.
  destruct world as [[net now] [name|i]]; unfold Gui.handle, Gui.selections; simpl.
  - match goal with
    | |- context [if ?b then _ else _] => destruct b; [|discriminate]
    end.
    intros H; injection H as <-.
    unfold Gui.run_callback, Gui.ubind, Gui.modify.
    destruct (callback_outcome v net now (Gui.set_wilayah name (Gui.window st)))
      as [(s' & -> & Ht & _)|(e & s' & -> & Ht & _)]; simpl; rewrite Ht; simpl.
    + rewrite length_app. simpl. lia.
    + lia.
  - destruct (nth_error _ i) as [[ms v']|] eqn:Hi; [|discriminate].
    destruct (Gui.same_view v v'); [|discriminate].
    intros H; injection H as <-.
    unfold Gui.run_callback, Gui.ubind, Gui.modify.
    pose proof (length_remove_nth _ _ _ Hi) as Hlen.
    destruct (callback_outcome v net now
                (Gui.set_timers (Gui.remove_nth i (Gui.timers (Gui.window st)))
                                (Gui.window st)))
      as [(s' & -> & Ht & _)|(e & s' & -> & Ht & _)]; simpl; rewrite Ht; simpl.
    + rewrite length_app. simpl. lia.
    + lia.
Qed.

(** X17.  Timers are never cancelled.  Over any run of events in a
    refreshing view, every selection in the combobox starts one more chain
    of refreshes: the pending timers and the exceptions reported so far
    together grow by exactly the number of selections (a timer that fires
    is replaced by a new timer or, when its callback raises, by a report). *)
Theorem timers_accumulate_with_selections (v : Gui.RefreshView)
        (trace : list (Network * Timestamp * Gui.Event)) (st st' : Gui.Loop) :
  Gui.run v trace st = Some st' ->
  (length (Gui.timers (Gui.window st')) + length (Gui.reported st')
   = length (Gui.timers (Gui.window st)) + length (Gui.reported st)
     + Gui.selections trace)%nat.
Proof.
  revert st; induction trace as [|world trace IH]; intros st; simpl.
  - intros H; injection H as <-. unfold Gui.selections. simpl. lia.
  - destruct (Gui.handle v world st) as [st1|] eqn:H1; [|discriminate].
    intros H. apply IH in H. apply handle_accounting in H1.
    unfold Gui.selections in *. simpl in *.
    destruct (snd world); simpl in *; lia.
Qed.

Lemma fetch_columns (net : Network) (lat lon : Q) (df : DataFrame) :
  get_air_quality_data net lat lon = Returned df ->
  column_names df = ["Waktu"; "CO2_ppm"; "CH4_ppb"].
Proof.
  destruct (failed_or_keyed (net (air_quality_request lat lon)))
    as [Hf|(kv & h & t & c & m & Hnet & Hh & Ht & Hc & Hm)].
  - rewrite (failed_fetch_empty _ _ _ Hf). intros H; injection H as <-.
    reflexivity.
  - unfold get_air_quality_data. rewrite Hnet. simpl. rewrite Hh. simpl.
    rewrite Ht. simpl.
    destruct (to_datetime t) as [ts|]; simpl;
      [|intros H; injection H as <-; reflexivity].
    rewrite Hc, Hm. simpl.
    destruct (DataFrame_of_dict _) as [df'|] eqn:Hdf; simpl;
      intros H; injection H as <-; [|reflexivity].
    now apply DataFrame_of_dict_names in Hdf.
Qed.

Lemma set_tree_same (s : Gui.Tk) : Gui.set_tree (Gui.tree s) s = s.
Proof. now destruct s. Qed.

Lemma for_each_rows (rows : list Row) (rs : list (string * Cell * Cell)) (s : Gui.Tk) :
  mapM Gui.tree_row rows = Returned rs ->
  Gui.for_each rows
    (fun row => Gui.ubind (Gui.lift (Gui.tree_row row))
                  (fun r => Gui.modify (fun s => Gui.set_tree (Gui.tree s ++ [r]) s))) s
  = (Returned tt, Gui.set_tree (Gui.tree s ++ rs) s).
Proof.
  revert rs s; induction rows as [|row rows IH]; intros rs s;
    cbn [mapM Gui.for_each].
  - intros H; injection H as <-. unfold Gui.ret.
    now rewrite app_nil_r, set_tree_same.
  - destruct (Gui.tree_row row) as [r|] eqn:Hr; cbn [bind]; [|discriminate].
    destruct (mapM Gui.tree_row rows) as [rs'|] eqn:Hrs; cbn [bind];
      [|discriminate].
    intros H; injection H as <-.
    unfold Gui.ubind at 1.
    match goal with
    | |- (let (_, _) := ?m in _) = _ =>
        change m with (Returned tt, Gui.set_tree (Gui.tree s ++ [r]) s)
    end.
    cbv iota beta. rewrite (IH rs' _ eq_refl). cbn [Gui.tree Gui.set_tree].
    rewrite <- app_assoc. reflexivity.
Qed.

(** Every row of a Series the period filter made of a fetched frame has a
    real timestamp under "Waktu" and a cell under each gas. *)
Lemma period_rows_format (start_date end_date : date) (df period : DataFrame) :
  column_names df = ["Waktu"; "CO2_ppm"; "CH4_ppb"] ->
  df_period start_date end_date df = Returned period ->
  forall row, In row (iterrows period) -> exists r, Gui.tree_row row = Returned r.
Proof.
  intros Hcols Hp.
  destruct df as [|[k1 c1] [|[k2 c2] [|[k3 c3] [|]]]]; try discriminate.
  injection Hcols as -> -> ->.
  unfold df_period in Hp. simpl in Hp.
  destruct c1 as [l|l]; simpl in Hp; [|discriminate].
  rewrite period_mask in Hp. injection Hp as <-.
  intros row Hrow. unfold iterrows in Hrow. simpl in Hrow.
  apply in_map_iff in Hrow. destruct Hrow as (i & <- & Hi).
  apply in_seq in Hi. rewrite select_map_filter in *.
  unfold Gui.tree_row. simpl.
  rewrite (nth_indep _ (Value JNull) (Time None))
    by (rewrite length_map; lia).
  rewrite map_nth.
  assert (Hin : In (nth i (List.filter (in_period start_date end_date) l) None)
                   (List.filter (in_period start_date end_date) l))
    by (apply nth_In; lia).
  apply filter_In in Hin. destruct Hin as [_ Hpred].
  destruct (nth i _ None) as [t|]; [|discriminate]. simpl. eauto.
Qed.

(** X18.  Whenever the fetch and the period filter go through, the "Ambil
    Data" action replaces the rows of the table by one row per Reading of
    the filtered Series and binds the save button to that Series.  No row
    makes [strftime] raise: the filter has dropped the missing timestamps. *)
Theorem ambil_data_fills_table (net : Network) (start_date end_date : date)
        (s : Gui.Tk) (period : DataFrame) :
  ambil_data net (Gui.wilayah_var s) start_date end_date = Returned period ->
  exists rows,
    mapM Gui.tree_row (iterrows period) = Returned rows /\
    length rows = nrows period /\
    Gui.ambil_data net start_date end_date s
    = (Returned tt,
       Gui.with_save_button period "Simpan CSV Periode" (Gui.set_tree rows s)).
Proof.
  intros H. unfold ambil_data in H.
  destruct (wilayah (Gui.wilayah_var s)) as [c|] eqn:Hc; simpl in H; [|discriminate].
  destruct (get_air_quality_data net (fst c) (snd c)) as [df|] eqn:Hget;
    simpl in H; [|discriminate].
  pose proof (fetch_columns _ _ _ _ Hget) as Hcols.
  destruct (mapM_total Gui.tree_row (iterrows period)
              (period_rows_format _ _ _ _ Hcols H)) as [rows Hrows].
  exists rows. split; [exact Hrows|]. split.
  - apply mapM_Forall2, Forall2_length in Hrows. rewrite <- Hrows.
    unfold iterrows. now rewrite length_map, length_seq.
  - unfold Gui.ambil_data.
    unfold Gui.ubind at 1, Gui.gets. unfold Gui.ubind at 1, Gui.lift.
    rewrite Hc. unfold Gui.ubind at 1. rewrite Hget.
    unfold Gui.ubind at 1. rewrite H.
    unfold Gui.ubind at 1, Gui.modify. unfold Gui.ubind at 1.
    rewrite (for_each_rows _ _ _ Hrows). reflexivity.
Qed.

(** X19.  When the fetch for the default location fails, [show_realtime]
    raises AttributeError after it has packed the title, the selector and
    the two empty frames: there is no chart, no KPI label, no save button
    and no timer.  At start-up, where it is called before the main loop,
    nothing catches the exception. *)
Theorem show_realtime_raises_on_failed_fetch (net : Network) (now : Timestamp)
        (s : Gui.Tk) :
  failed_fetch (net (air_quality_request (-(61862 # 10000)) (1068347 # 10000))) ->
  Gui.show_realtime net now s
  = (Raised AttributeError,
     {| Gui.content_frame :=
          [ Gui.TextLabel "Dashboard Realtime (Hari ini)";
            Gui.TextLabel "Pilih Wilayah:";
            Gui.Combobox [ "Jakarta Pusat"; "Jakarta Barat"; "Jakarta Timur";
                           "Jakarta Selatan"; "Jakarta Utara"; "Pulau Seribu" ];
            Gui.GraphFrame; Gui.KpiFrame ];
        Gui.graph_frame := []; Gui.kpi_frame := []; Gui.tree := [];
        Gui.wilayah_var := "Jakarta Pusat";
        Gui.timers := Gui.timers s |}).
Proof.
  intros Hf. unfold Gui.show_realtime.
  unfold Gui.ubind, Gui.clear_content, Gui.pack, Gui.modify. simpl.
  rewrite update_graph_run. simpl.
  now rewrite (failed_fetch_empty _ _ _ Hf).
Qed.

(** X20.  Opening a view cancels no timer: after [show_realtime],
    [show_forecast] or [show_data_periode] every timer that was pending is
    still pending, ahead of the at most one the new view schedules; the
    period view schedules none and offers the dates from seven days before
    the day it is opened to that day. *)
Theorem views_never_cancel_timers (net : Network) (now : Timestamp) (s : Gui.Tk) :
  (exists extra,
      Gui.timers (snd (Gui.show_realtime net now s)) = (Gui.timers s ++ extra)%list /\
      (length extra <= 1)%nat) /\
  (exists extra,
      Gui.timers (snd (Gui.show_forecast net now s)) = (Gui.timers s ++ extra)%list /\
      (length extra <= 1)%nat) /\
  Gui.timers (snd (Gui.show_data_periode now s)) = Gui.timers s /\
  List.filter (fun c => match c with Gui.DateEntry _ _ => true | _ => false end)
              (Gui.content_frame (snd (Gui.show_data_periode now s)))
  = [ Gui.DateEntry (date_of now - 7) (date_of now);
      Gui.DateEntry (date_of now - 7) (date_of now) ].
Proof.
  assert (Hcb : forall v s0,
             exists extra,
               Gui.timers (snd (Gui.callback v net now s0))
               = (Gui.timers s0 ++ extra)%list /\ (length extra <= 1)%nat).
  { intros v s0.
    destruct (callback_outcome v net now s0)
      as [(s' & -> & Ht & _)|(e & s' & -> & Ht & _)]; simpl; rewrite Ht.
    - eexists. split; [reflexivity|]. simpl. lia.
    - exists []. rewrite app_nil_r. split; [reflexivity|]. simpl. lia. }
  split; [|split; [|split]].
  - unfold Gui.show_realtime, Gui.ubind, Gui.clear_content, Gui.pack, Gui.modify.
    simpl. match goal with
           | |- context [Gui.update_graph net now ?s0] =>
               exact (Hcb Gui.RealtimeView s0)
           end.
  - unfold Gui.show_forecast, Gui.ubind, Gui.clear_content, Gui.pack, Gui.modify.
    simpl. match goal with
           | |- context [Gui.update_forecast net now ?s0] =>
               exact (Hcb Gui.ForecastView s0)
           end.
  - reflexivity.
  - reflexivity.
Qed.

(** X12.  When the fetch is discarded (transport error, body that is not
    JSON, JSON that is not an object, "hourly" missing or not an object, one
    of its three keys missing, arrays of different lengths, a time that does
    not parse), a refresh of the forecast view does not raise: the chart
    frame shows the "no data" label, the one save button is bound to the
    empty Series, and the next refresh is scheduled after the pending
    ones. *)
Theorem forecast_view_after_discarded_fetch (net : Network) (now : Timestamp)
        (s : Gui.Tk) (c : Q * Q) :
  wilayah (Gui.wilayah_var s) = Returned c ->
  discarded_fetch (net (air_quality_request (fst c) (snd c))) ->
  exists s',
    Gui.update_forecast net now s = (Returned tt, s') /\
    Gui.graph_frame s' = [Label "Tidak ada data tersedia."] /\
    List.filter Gui.is_save_button (Gui.content_frame s')
    = [Gui.SaveButton "Simpan CSV Forecast" empty_frame] /\
    List.filter (fun w => negb (Gui.is_save_button w)) (Gui.content_frame s')
    = List.filter (fun w => negb (Gui.is_save_button w)) (Gui.content_frame s) /\
    Gui.timers s' = (Gui.timers s ++ [(600000, Gui.ForecastView)])%list.
Proof.
  intros Hc Hd. rewrite update_forecast_run.
  rewrite Hc, (discarded_fetch_empty _ _ _ Hd). simpl.
  eexists. split; [reflexivity|]. simpl.
  rewrite !filter_app, filter_save_of_others, filter_others_twice. simpl.
  rewrite app_nil_r. repeat split.
Qed.

End GuiSpec.

(** ** The further properties on concrete runs *)

Section MoreRuns.
#[local] Existing Instance iso_lib.

Lemma fetched_data_has_all_keys_witness :
  (get_air_quality_data (answers two_hours) 0 0
   = Returned (series [Some may_1st_13h; Some (may_1st_13h + 3600000000000)]
                      [JNum 420; JNum 460] [JNum 1900; JNum 1960]) /\
   series [Some may_1st_13h; Some (may_1st_13h + 3600000000000)]
          [JNum 420; JNum 460] [JNum 1900; JNum 1960] <> empty_frame) /\
  exists kv h time co2 ch4,
    answers two_hours (air_quality_request 0 0)
    = Returned {| body := Some (JObj kv) |} /\
    dict_get "hourly" kv = Some (JObj h) /\
    dict_get "time" h = Some time /\
    dict_get "carbon_dioxide" h = Some co2 /\
    dict_get "methane" h = Some ch4.
Proof.
  assert (Hget : get_air_quality_data (answers two_hours) 0 0
                 = Returned (series [Some may_1st_13h; Some (may_1st_13h + 3600000000000)]
                                    [JNum 420; JNum 460] [JNum 1900; JNum 1960]))
    by reflexivity.
  assert (Hne : series [Some may_1st_13h; Some (may_1st_13h + 3600000000000)]
                       [JNum 420; JNum 460] [JNum 1900; JNum 1960] <> empty_frame)
    by discriminate.
  split; [split; [exact Hget|exact Hne]|].
  destruct (fetched_data_has_all_keys _ _ _ _ Hget Hne)
    as (kv & h & time & co2 & ch4 & H1 & H2 & H3 & H4 & H5 & _).
  now exists kv, h, time, co2, ch4.
Defined.

Lemma ambil_data_parallel_arrays_witness :
  exists times' co2' ch4',
    ambil_data (answers two_hours) "Jakarta Pusat" 19844 19844
    = Returned (series times' co2' ch4') /\
    readings times' co2' ch4'
    = List.filter (fun r => in_period 19844 19844 (timestamp r))
        (readings [Some may_1st_13h; Some (may_1st_13h + 3600000000000)]
                  [JNum 420; JNum 460] [JNum 1900; JNum 1960]).
Proof.
  refine (ambil_data_parallel_arrays (answers two_hours) "Jakarta Pusat"
            (-(61862 # 10000), 1068347 # 10000)%Q 19844 19844 two_hours
            [JStr "2024-05-01T13:00"; JStr "2024-05-01T14:00"]
            [JNum 420; JNum 460] [JNum 1900; JNum 1960]
            [Some may_1st_13h; Some (may_1st_13h + 3600000000000)]
            eq_refl eq_refl _ eq_refl eq_refl _).
  - eexists _, _. repeat split.
  - repeat constructor.
Defined.

Lemma export_after_filter_witness :
  view_filter (Forecast may_1st_13h)
              (series [Some may_1st_13h; Some (may_1st_13h + 3600000000000)]
                      [JNum 420; JNum 460.5] [JNum 1900; JNull])
  = Returned (series [Some (may_1st_13h + 3600000000000)] [JNum 460.5] [JNull]) /\
  save_csv (series [Some (may_1st_13h + 3600000000000)] [JNum 460.5] [JNull])
  = "Waktu,CO2_ppm,CH4_ppb
2024-05-01 14:00:00,460.5,
" /\
  line_breaks
    (save_csv (series [Some (may_1st_13h + 3600000000000)] [JNum 460.5] [JNull]))
  = 2%nat.
Proof.
  destruct (export_after_filter (Forecast may_1st_13h)
              [Some may_1st_13h; Some (may_1st_13h + 3600000000000)]
              [JNum 420; JNum 460.5] [JNum 1900; JNull] eq_refl eq_refl)
    as (times' & co2' & ch4' & Hv & _ & Htext & Hlines).
  assert (Hc : view_filter (Forecast may_1st_13h)
                 (series [Some may_1st_13h; Some (may_1st_13h + 3600000000000)]
                         [JNum 420; JNum 460.5] [JNum 1900; JNull])
               = Returned (series [Some (may_1st_13h + 3600000000000)]
                                  [JNum 460.5] [JNull])) by reflexivity.
  rewrite Hc in Hv. injection Hv as <- <- <-.
  split; [exact Hc|]. split; [exact Htext|].
  apply Hlines. repeat constructor.
Defined.

Lemma forecast_view_after_discarded_fetch_witness :
  discarded_fetch
    (answers short_methane
             (air_quality_request (-(61862 # 10000)) (1068347 # 10000))) /\
  exists s',
    Gui.update_forecast (answers short_methane) may_1st_13h
                        (Gui.set_wilayah "Jakarta Pusat" Gui.initial)
    = (Returned tt, s') /\
    Gui.graph_frame s' = [Label "Tidak ada data tersedia."] /\
    Gui.timers s' = [(600000, Gui.ForecastView)].
Proof.
  assert (Hd : discarded_fetch
                 (answers short_methane
                    (air_quality_request (-(61862 # 10000)) (1068347 # 10000)))).
  { apply (discarded_lengths short_methane
             [JStr "2024-05-01T13:00"; JStr "2024-05-01T14:00"]
             [JNum 420; JNum 460] [JNum 1900]).
    - eexists _, _. repeat split.
    - right. discriminate. }
  split; [exact Hd|].
  destruct (forecast_view_after_discarded_fetch (answers short_methane) may_1st_13h
              (Gui.set_wilayah "Jakarta Pusat" Gui.initial)
              (-(61862 # 10000), 1068347 # 10000)%Q eq_refl Hd)
    as (s' & Hrun & Hg & _ & _ & Ht).
  exists s'. split; [exact Hrun|]. split; [exact Hg|exact Ht].
Defined.

Lemma period_with_reversed_dates_is_empty_witness :
  (19844 < 19845 /\
   df_period 19845 19844
             (series [Some (may_1st_13h - ns_per_day); Some may_1st_13h]
                     [JNum 420; JNum 460] [JNum 1900; JNum 1960])
   = Returned (series [] [] [])) /\
  nrows (series [] [] []) = 0%nat /\ empty (series [] [] []) = true.
Proof.
  assert (Hlt : 19844 < 19845) by lia.
  assert (Hp : df_period 19845 19844
                 (series [Some (may_1st_13h - ns_per_day); Some may_1st_13h]
                         [JNum 420; JNum 460] [JNum 1900; JNum 1960])
               = Returned (series [] [] [])) by reflexivity.
  split; [split; [exact Hlt|exact Hp]|].
  destruct (period_with_reversed_dates_is_empty _ _ _ _ Hlt Hp) as (H1 & H2 & _).
  split; [exact H1|exact H2].
Defined.

Lemma view_filters_commute_witness :
  exists d1 d2 d,
    view_filter (Realtime may_1st_13h)
                (series [Some (may_1st_13h - ns_per_day); Some may_1st_13h;
                         Some (may_1st_13h + 3600000000000)]
                        [JNum 420; JNum 460; JNum 470] [JNum 1900; JNum 1960; JNull])
    = Returned d1 /\
    view_filter (Forecast may_1st_13h) d1 = Returned d /\
    view_filter (Forecast may_1st_13h)
                (series [Some (may_1st_13h - ns_per_day); Some may_1st_13h;
                         Some (may_1st_13h + 3600000000000)]
                        [JNum 420; JNum 460; JNum 470] [JNum 1900; JNum 1960; JNull])
    = Returned d2 /\
    view_filter (Realtime may_1st_13h) d2 = Returned d.
Proof.
  exact (view_filters_commute (Realtime may_1st_13h) (Forecast may_1st_13h)
           (series [Some (may_1st_13h - ns_per_day); Some may_1st_13h;
                    Some (may_1st_13h + 3600000000000)]
                   [JNum 420; JNum 460; JNum 470] [JNum 1900; JNum 1960; JNull])
           [Some (may_1st_13h - ns_per_day); Some may_1st_13h;
            Some (may_1st_13h + 3600000000000)] eq_refl).
Defined.

Lemma view_filter_keeps_order_witness :
  StronglySorted (fun a b => forall t, a = Some t -> is_future t b = true)
                 [Some (may_1st_13h - ns_per_day); Some may_1st_13h] /\
  exists df' kept,
    view_filter (Realtime may_1st_13h)
                (series [Some (may_1st_13h - ns_per_day); Some may_1st_13h]
                        [JNum 420; JNum 460] [JNum 1900; JNum 1960])
    = Returned df' /\
    getitem_col df' "Waktu" = Returned (ColDatetime kept) /\
    kept = List.filter (view_predicate (Realtime may_1st_13h))
                       [Some (may_1st_13h - ns_per_day); Some may_1st_13h] /\
    StronglySorted (fun a b => forall t, a = Some t -> is_future t b = true) kept.
Proof.
  assert (Hs : StronglySorted (fun a b => forall t, a = Some t -> is_future t b = true)
                 [Some (may_1st_13h - ns_per_day); Some may_1st_13h])
    by (repeat constructor; intros t [= <-]; reflexivity).
  split; [exact Hs|].
  exact (view_filter_keeps_order (Realtime may_1st_13h)
           (series [Some (may_1st_13h - ns_per_day); Some may_1st_13h]
                   [JNum 420; JNum 460] [JNum 1900; JNum 1960])
           [Some (may_1st_13h - ns_per_day); Some may_1st_13h] _ eq_refl Hs).
Defined.

Lemma view_filter_drops_NaT_witness :
  exists df' kept,
    view_filter (Period 19843 19844)
                (series [Some (may_1st_13h - ns_per_day); None; Some may_1st_13h]
                        [JNum 420; JNum 440; JNum 460] [JNum 1900; JNull; JNum 1960])
    = Returned df' /\
    getitem_col df' "Waktu" = Returned (ColDatetime kept) /\
    Forall (fun x => exists t, x = Some t /\
                               view_predicate (Period 19843 19844) (Some t) = true)
           kept.
Proof.
  exact (view_filter_drops_NaT (Period 19843 19844)
           (series [Some (may_1st_13h - ns_per_day); None; Some may_1st_13h]
                   [JNum 420; JNum 440; JNum 460] [JNum 1900; JNull; JNum 1960])
           [Some (may_1st_13h - ns_per_day); None; Some may_1st_13h] eq_refl).
Defined.

Lemma view_filter_never_adds_rows_witness :
  view_filter (Forecast may_1st_13h)
              (series [Some may_1st_13h; Some (may_1st_13h + 3600000000000)]
                      [JNum 420; JNum 460] [JNum 1900; JNum 1960])
  = Returned (series [Some (may_1st_13h + 3600000000000)] [JNum 460] [JNum 1960]) /\
  Nat.le (nrows (series [Some (may_1st_13h + 3600000000000)] [JNum 460] [JNum 1960]))
         (nrows (series [Some may_1st_13h; Some (may_1st_13h + 3600000000000)]
                        [JNum 420; JNum 460] [JNum 1900; JNum 1960])).
Proof.
  assert (H : view_filter (Forecast may_1st_13h)
                (series [Some may_1st_13h; Some (may_1st_13h + 3600000000000)]
                        [JNum 420; JNum 460] [JNum 1900; JNum 1960])
              = Returned (series [Some (may_1st_13h + 3600000000000)]
                                 [JNum 460] [JNum 1960])) by reflexivity.
  split; [exact H|].
  exact (view_filter_never_adds_rows _ _ _ H).
Defined.

Lemma show_kpi_nan_is_tinggi_witness :
  mean (ColObject [JNull]) = Returned NaN /\
  show_kpi (series [Some may_1st_13h] [JNull] [JNum 1900])
  = Returned (KpiLabel NaN (Fin 1900) Tinggi "#E53935").
Proof.
  assert (Hm : mean (ColObject [JNull]) = Returned NaN) by reflexivity.
  split; [exact Hm|].
  exact (show_kpi_nan_is_tinggi (series [Some may_1st_13h] [JNull] [JNum 1900])
           (ColObject [JNull]) (ColObject [JNum 1900]) (Fin 1900)
           eq_refl eq_refl Hm eq_refl eq_refl).
Defined.

Lemma refresh_shows_and_exports_one_series_witness :
  exists s',
    Gui.update_graph (answers two_hours) may_1st_13h
                     (Gui.set_wilayah "Jakarta Pusat" Gui.initial)
    = (Returned tt, s') /\
    Gui.kpi_frame s' = [KpiLabel (Fin 440) (Fin 1930) Normal "#43A047"] /\
    List.filter Gui.is_save_button (Gui.content_frame s')
    = [Gui.SaveButton "Simpan CSV Realtime"
         (series [Some may_1st_13h; Some (may_1st_13h + 3600000000000)]
                 [JNum 420; JNum 460] [JNum 1900; JNum 1960])] /\
    Gui.timers s' = [(600000, Gui.RealtimeView)].
Proof.
  destruct (refresh_shows_and_exports_one_series
              (answers two_hours) may_1st_13h
              (Gui.set_wilayah "Jakarta Pusat" Gui.initial)
              _ _ _ update_graph_two_hours)
    as (s' & Hrun & _ & _ & _ & Hk & Hsave & Ht).
  exists s'. split; [exact Hrun|]. split; [exact Hk|].
  split; [exact Hsave|exact Ht].
Defined.

Lemma realtime_refresh_stops_after_failed_fetch_witness :
  failed_fetch (unreachable (air_quality_request (-(61862 # 10000)) (1068347 # 10000))) /\
  Gui.handle Gui.RealtimeView (unreachable, may_1st_13h, Gui.Fire 0)
    {| Gui.window := Gui.set_timers [(600000, Gui.RealtimeView)]
                       (Gui.set_wilayah "Jakarta Pusat" Gui.initial);
       Gui.reported := [] |}
  = Some {| Gui.window := Gui.set_wilayah "Jakarta Pusat" Gui.initial;
            Gui.reported := [AttributeError] |}.
Proof.
  assert (Hf : failed_fetch
                 (unreachable (air_quality_request (-(61862 # 10000)) (1068347 # 10000))))
    by apply transport_error.
  split; [exact Hf|].
  exact (realtime_refresh_stops_after_failed_fetch unreachable may_1st_13h
           {| Gui.window := Gui.set_timers [(600000, Gui.RealtimeView)]
                              (Gui.set_wilayah "Jakarta Pusat" Gui.initial);
              Gui.reported := [] |}
           600000 (-(61862 # 10000), 1068347 # 10000)%Q eq_refl eq_refl Hf).
Defined.

Lemma forecast_refresh_goes_on_after_failed_fetch_witness :
  failed_fetch (unreachable (air_quality_request (-(61862 # 10000)) (1068347 # 10000))) /\
  exists w,
    Gui.handle Gui.ForecastView (unreachable, may_1st_13h, Gui.Fire 0)
      {| Gui.window := Gui.set_timers [(600000, Gui.ForecastView)]
                         (Gui.set_wilayah "Jakarta Pusat" Gui.initial);
         Gui.reported := [] |}
    = Some {| Gui.window := w; Gui.reported := [] |} /\
    Gui.graph_frame w = [Label "Tidak ada data tersedia."] /\
    Gui.timers w = [(600000, Gui.ForecastView)].
Proof.
  assert (Hf : failed_fetch
                 (unreachable (air_quality_request (-(61862 # 10000)) (1068347 # 10000))))
    by apply transport_error.
  split; [exact Hf|].
  destruct (forecast_refresh_goes_on_after_failed_fetch unreachable may_1st_13h
              {| Gui.window := Gui.set_timers [(600000, Gui.ForecastView)]
                                 (Gui.set_wilayah "Jakarta Pusat" Gui.initial);
                 Gui.reported := [] |}
              600000 (-(61862 # 10000), 1068347 # 10000)%Q eq_refl eq_refl Hf)
    as (w & Hrun & Hg & _ & Ht).
  exists w. split; [exact Hrun|]. split; [exact Hg|exact Ht].
Defined.

Lemma timers_accumulate_with_selections_witness :
  exists st',
    Gui.run Gui.RealtimeView
      [ (answers two_hours, may_1st_13h, Gui.Select "Jakarta Barat");
        (unreachable, may_1st_13h + 600000000000, Gui.Fire 0) ]
      {| Gui.window := snd (Gui.show_realtime (answers two_hours) may_1st_13h
                                              Gui.initial);
         Gui.reported := [] |}
    = Some st' /\
    Gui.timers (Gui.window st') = [(600000, Gui.RealtimeView)] /\
    Gui.reported st' = [AttributeError] /\
    Nat.add (length (Gui.timers (Gui.window st'))) (length (Gui.reported st'))
    = 2%nat.
Proof.
  destruct (Gui.run Gui.RealtimeView
              [ (answers two_hours, may_1st_13h, Gui.Select "Jakarta Barat");
                (unreachable, may_1st_13h + 600000000000, Gui.Fire 0) ]
              {| Gui.window := snd (Gui.show_realtime (answers two_hours) may_1st_13h
                                                      Gui.initial);
                 Gui.reported := [] |}) as [st'|] eqn:Hrun;
    [|vm_compute in Hrun; discriminate].
  exists st'. split; [reflexivity|].
  pose proof (timers_accumulate_with_selections _ _ _ _ Hrun) as Hacc.
  vm_compute in Hrun. injection Hrun as <-.
  split; [reflexivity|]. split; [reflexivity|]. exact Hacc.
Defined.

Lemma ambil_data_fills_table_witness :
  ambil_data (answers two_hours) "Jakarta Pusat" 19844 19844
  = Returned (series [Some may_1st_13h; Some (may_1st_13h + 3600000000000)]
                     [JNum 420; JNum 460] [JNum 1900; JNum 1960]) /\
  exists s',
    Gui.ambil_data (answers two_hours) 19844 19844
                   (snd (Gui.show_data_periode may_1st_13h Gui.initial))
    = (Returned tt, s') /\
    Gui.tree s'
    = [ ("2024-05-01 13:00", Value (JNum 420), Value (JNum 1900));
        ("2024-05-01 14:00", Value (JNum 460), Value (JNum 1960)) ].
Proof.
  assert (H : ambil_data (answers two_hours) "Jakarta Pusat" 19844 19844
              = Returned (series [Some may_1st_13h; Some (may_1st_13h + 3600000000000)]
                                 [JNum 420; JNum 460] [JNum 1900; JNum 1960]))
    by reflexivity.
  split; [exact H|].
  destruct (ambil_data_fills_table (answers two_hours) 19844 19844
              (snd (Gui.show_data_periode may_1st_13h Gui.initial)) _ H)
    as (rows & Hrows & _ & Hrun).
  eexists. split; [exact Hrun|].
  vm_compute in Hrows. injection Hrows as <-. reflexivity.
Defined.

Lemma show_realtime_raises_on_failed_fetch_witness :
  failed_fetch (not_json (air_quality_request (-(61862 # 10000)) (1068347 # 10000))) /\
  fst (Gui.show_realtime not_json may_1st_13h Gui.initial) = Raised AttributeError /\
  Gui.timers (snd (Gui.show_realtime not_json may_1st_13h Gui.initial)) = [].
Proof.
  assert (Hf : failed_fetch
                 (not_json (air_quality_request (-(61862 # 10000)) (1068347 # 10000))))
    by apply malformed_payload.
  split; [exact Hf|].
  rewrite (show_realtime_raises_on_failed_fetch not_json may_1st_13h Gui.initial Hf).
  split; reflexivity.
Defined.

End MoreRuns.
